(** * Skills Reference API: the text endpoints of [main.py]

    A shallow embedding of the three POST handlers of [main.py]
    ([validate_skill_text], [get_properties_from_text],
    [generate_prompt_text]) together with the two core functions they call,
    [parse_frontmatter] and [validate_metadata].

    Python strings are sequences of Unicode code points; dictionaries are
    finite maps; exceptions and the order of calls into the core are threaded
    through a small exception-and-trace monad. *)

From Stdlib Require Import String Ascii NArith ZArith List Lia DecimalString.
From stdpp Require Import base option list gmap.

Local Open Scope N_scope.

(** ** Python [str] *)

(** A [str] is a list of code points.  Code points are numbers below
    [0x110000]; larger numbers do not occur in a Python string. *)
Abbreviation str := (list N).

(** ASCII literals of the source, as code points. *)
Fixpoint py (s : string) : str :=
  match s with
  | EmptyString => []
  | String a s' => N_of_ascii a :: py s'
  end.
Arguments py : simpl never.

(** [str.isspace] for one code point: the characters [str.strip()] removes. *)
Definition isspace (c : N) : bool :=
  ((0x09 <=? c) && (c <=? 0x0D)) || ((0x1C <=? c) && (c <=? 0x20))
  || (c =? 0x85) || (c =? 0xA0) || (c =? 0x1680)
  || ((0x2000 <=? c) && (c <=? 0x200A))
  || (c =? 0x2028) || (c =? 0x2029) || (c =? 0x202F) || (c =? 0x205F)
  || (c =? 0x3000).

Fixpoint lstrip (s : str) : str :=
  match s with
  | [] => []
  | c :: s' => if isspace c then lstrip s' else s
  end.

Definition rstrip (s : str) : str := rev (lstrip (rev s)).

(** [s.strip()] *)
Definition strip (s : str) : str := rstrip (lstrip s).

(** [sep.join(parts)] *)
Fixpoint join (sep : str) (parts : list str) : str :=
  match parts with
  | [] => []
  | [p] => p
  | p :: ps => p ++ sep ++ join sep ps
  end.

(** [html.escape(s)] with its default [quote=True]. *)
Definition escape_char (c : N) : str :=
  if c =? 0x26 then py "&amp;"
  else if c =? 0x3C then py "&lt;"
  else if c =? 0x3E then py "&gt;"
  else if c =? 0x22 then py "&quot;"
  else if c =? 0x27 then py "&#x27;"
  else [c].

Definition html_escape (s : str) : str := flat_map escape_char s.

(** [str(n)] for a non-negative integer, as the f-strings render it. *)
Definition decimal (n : N) : str := py (NilZero.string_of_uint (N.to_uint n)).

(** *** UTF-8 *)

Definition is_surrogate (c : N) : bool := (0xD800 <=? c) && (c <=? 0xDFFF).

(** The bytes of one code point; lone surrogates have no encoding. *)
Definition utf8_char (c : N) : option (list N) :=
  if c <? 0x80 then Some [c]
  else if c <? 0x800 then
    Some [N.lor 0xC0 (N.shiftr c 6); N.lor 0x80 (N.land c 0x3F)]
  else if c <? 0x10000 then
    if is_surrogate c then None
    else Some [N.lor 0xE0 (N.shiftr c 12);
               N.lor 0x80 (N.land (N.shiftr c 6) 0x3F);
               N.lor 0x80 (N.land c 0x3F)]
  else if c <? 0x110000 then
    Some [N.lor 0xF0 (N.shiftr c 18);
          N.lor 0x80 (N.land (N.shiftr c 12) 0x3F);
          N.lor 0x80 (N.land (N.shiftr c 6) 0x3F);
          N.lor 0x80 (N.land c 0x3F)]
  else None.

(** [s.encode('utf-8')]; [None] stands for [UnicodeEncodeError]. *)
Fixpoint encode_utf8 (s : str) : option (list N) :=
  match s with
  | [] => Some []
  | c :: s' =>
      match utf8_char c, encode_utf8 s' with
      | Some bs, Some rest => Some (bs ++ rest)
      | _, _ => None
      end
  end.

(** ** Metadata *)

(** The scalar a metadata key maps to. *)
Inductive value : Type :=
| VStr (s : str)
| VBool (b : bool)
| VNum (n : Z)
| VNull.

(** The metadata [dict]: a finite map from keys to scalars. *)
Abbreviation MetadataBlock := (gmap (list N) value).

(** ** Exceptions *)

(** Exceptions raised by the interpreter itself rather than by a [raise]
    statement of the program. *)
Inductive builtin_error : Type :=
| UnicodeEncodeError (object : str)
| AttributeError (obj : value) (attr : str).

(** Every exception carries what [str(e)] prints, except the built-in ones,
    whose text belongs to the interpreter. *)
Inductive exn : Type :=
| HTTPException (status_code : Z) (detail : str)
| ParseError (msg : str)
| SkillError (msg : str)
| BuiltinError (b : builtin_error)
| OtherError (msg : str).

(** ** Calls into the core, and the monad of a handler *)

Inductive call : Type :=
| CallParse (content : str)
| CallValidate (metadata : MetadataBlock) (skill_dir : option str).

Inductive outcome (A : Type) : Type :=
| Return (a : A)
| Raise (e : exn).
Arguments Return {A} a.
Arguments Raise {A} e.

(** A handler runs against the trace of core calls made so far and yields an
    outcome and the extended trace. *)
Definition M (A : Type) : Type := list call -> outcome A * list call.

Definition ret {A} (a : A) : M A := fun t => (Return a, t).

Definition raise {A} (e : exn) : M A := fun t => (Raise e, t).

Definition bind {A B} (m : M A) (k : A -> M B) : M B :=
  fun t =>
    match m t with
    | (Return a, t') => k a t'
    | (Raise e, t') => (Raise e, t')
    end.

(** [try: m  except ... as e: h e]; a handler that does not match re-raises. *)
Definition try_except {A} (m : M A) (h : exn -> M A) : M A :=
  fun t =>
    match m t with
    | (Return a, t') => (Return a, t')
    | (Raise e, t') => h e t'
    end.

(** A call of a core function: its outcome, and one more entry in the trace. *)
Definition invoke {A} (c : call) (r : outcome A) : M A :=
  fun t => (r, t ++ [c]).

Declare Scope handler_scope.
Delimit Scope handler_scope with handler.
Notation "x <- m ;; k" := (bind m (fun x => k))
  (at level 100, m at next level, right associativity) : handler_scope.

(** Run a handler from the empty trace. *)
Definition run {A} (m : M A) : outcome A * list call := m [].

(** ** Request and response models *)

(** [ValidationTextRequest].  Its [Config.max_anystr_length] is read by the
    framework when it builds the request object, before a handler runs; the
    handlers below receive the object as built. *)
Record ValidationTextRequest : Type := { content : str }.

Definition max_anystr_length : N := 1000000.

Record ValidationResponse : Type :=
  { valid : bool; problems : option (list str) }.

Record PropertiesResponse : Type := { name : str; description : str }.

Record PromptResponse : Type := { prompt : str }.

(** ** The handlers of [main.py] *)

(** The line feed of ["\n".join(lines)]. *)
Definition LF : str := [0x0A].

Section Handlers.

(** [from parser import parse_frontmatter] and
    [from validator import validate_metadata]: the core, as the functions
    the handlers call.  Each returns or raises. *)
Variable parse_frontmatter : str -> outcome (MetadataBlock * str).
Variable validate_metadata : MetadataBlock -> option str -> outcome (list str).

(** [from errors import SkillError, ParseError]: whether [ParseError] is a
    subclass of [SkillError] is decided in [errors.py]. *)
Variable ParseError_is_SkillError : bool.

(** [str(e)] of an exception the interpreter raised. *)
Variable str_builtin : builtin_error -> str.

Local Open Scope handler_scope.

(** [len(s.encode('utf-8'))] *)
Definition utf8_size (s : str) : M N :=
  match encode_utf8 s with
  | Some bs => ret (N.of_nat (length bs))
  | None => raise (BuiltinError (UnicodeEncodeError s))
  end.

(** [v.strip()], which only a [str] has. *)
Definition method_strip (v : value) : M str :=
  match v with
  | VStr s => ret (strip s)
  | _ => raise (BuiltinError (AttributeError v (py "strip")))
  end.

(** [f"Content size {content_size} bytes exceeds 1MB limit"] *)
Definition size_detail (content_size : N) : str :=
  py "Content size " ++ decimal content_size ++ py " bytes exceeds 1MB limit".

(** [f"Internal error: {str(e)}"] *)
Definition internal_error (msg : str) : exn :=
  HTTPException 500 (py "Internal error: " ++ msg).

(** [POST /validate/text] *)
Definition validate_skill_text (request : ValidationTextRequest)
  : M ValidationResponse :=
  try_except
    (content_size <- utf8_size (content request) ;;
     if 1000000 <? content_size then
       raise (HTTPException 413 (size_detail content_size))
     else
       parsed <-
         try_except
           (r <- invoke (CallParse (content request))
                        (parse_frontmatter (content request)) ;;
            ret (inr r))
           (fun e =>
              match e with
              | ParseError msg =>
                  ret (inl {| valid := false; problems := Some [msg] |})
              | _ => raise e
              end) ;;
       match parsed with
       | inl response => ret response
       | inr (metadata, _) =>
           problems <- invoke (CallValidate metadata None)
                              (validate_metadata metadata None) ;;
           ret {| valid := Nat.eqb (length problems) 0;
                  problems := match problems with
                              | [] => None
                              | _ :: _ => Some problems
                              end |}
       end)
    (fun e =>
       match e with
       | HTTPException _ _ => raise e
       | ParseError msg =>
           if ParseError_is_SkillError then raise (HTTPException 400 msg)
           else raise (internal_error msg)
       | SkillError msg => raise (HTTPException 400 msg)
       | BuiltinError b => raise (internal_error (str_builtin b))
       | OtherError msg => raise (internal_error msg)
       end).

(** [POST /properties/text] *)
Definition get_properties_from_text (request : ValidationTextRequest)
  : M PropertiesResponse :=
  try_except
    (content_size <- utf8_size (content request) ;;
     if 1000000 <? content_size then
       raise (HTTPException 413 (size_detail content_size))
     else
       r <- invoke (CallParse (content request))
                   (parse_frontmatter (content request)) ;;
       let metadata := fst r in
       match metadata !! py "name" with
       | None =>
           raise (HTTPException 400
                    (py "Missing required field in frontmatter: name"))
       | Some name =>
           match metadata !! py "description" with
           | None =>
               raise (HTTPException 400
                        (py "Missing required field in frontmatter: description"))
           | Some description =>
               match name with
               | VStr n =>
                   match strip n with
                   | _ :: _ =>
                       match description with
                       | VStr d =>
                           match strip d with
                           | _ :: _ =>
                               ret {| name := strip n;
                                      description := strip d |}
                           | [] =>
                               raise (HTTPException 400
                                        (py "Field 'description' must be a non-empty string"))
                           end
                       | _ =>
                           raise (HTTPException 400
                                    (py "Field 'description' must be a non-empty string"))
                       end
                   | [] =>
                       raise (HTTPException 400
                                (py "Field 'name' must be a non-empty string"))
                   end
               | _ =>
                   raise (HTTPException 400
                            (py "Field 'name' must be a non-empty string"))
               end
           end
       end)
    (fun e =>
       match e with
       | HTTPException _ _ => raise e
       | ParseError msg => raise (HTTPException 400 msg)
       | SkillError msg => raise (HTTPException 400 msg)
       | BuiltinError b => raise (internal_error (str_builtin b))
       | OtherError msg => raise (internal_error msg)
       end).

(** [POST /prompt/text] *)
Definition generate_prompt_text (request : ValidationTextRequest)
  : M PromptResponse :=
  try_except
    (content_size <- utf8_size (content request) ;;
     if 1000000 <? content_size then
       raise (HTTPException 413 (size_detail content_size))
     else
       r <- invoke (CallParse (content request))
                   (parse_frontmatter (content request)) ;;
       let metadata := fst r in
       match metadata !! py "name" with
       | None =>
           raise (HTTPException 400
                    (py "Missing required field in frontmatter: name"))
       | Some name =>
           match metadata !! py "description" with
           | None =>
               raise (HTTPException 400
                        (py "Missing required field in frontmatter: description"))
           | Some description =>
               stripped_name <- method_strip name ;;
               stripped_description <- method_strip description ;;
               let lines :=
                 [py "<available_skills>"; py "<skill>";
                  py "<name>"; html_escape stripped_name; py "</name>";
                  py "<description>"; html_escape stripped_description;
                  py "</description>";
                  py "<location>"; py "memory"; py "</location>";
                  py "</skill>"; py "</available_skills>"] in
               ret {| prompt := join LF lines |}
           end
       end)
    (fun e =>
       match e with
       | HTTPException _ _ => raise e
       | ParseError msg => raise (HTTPException 400 msg)
       | SkillError msg => raise (internal_error msg)
       | BuiltinError b => raise (internal_error (str_builtin b))
       | OtherError msg => raise (internal_error msg)
       end).

End Handlers.

(** ** The core: frontmatter parser and metadata validator *)

Module Core.

(** Modelled from the spec: the delimiter line of [parser.py], exactly three
    hyphens. *)
Definition DELIMITER : str := py "---".

(** Modelled from the spec: the lines of a document, the text between line
    feeds ([parser.py] is not part of the sources). *)
Fixpoint split_lines (s : str) : list str :=
  match s with
  | [] => [[]]
  | c :: s' =>
      if c =? 0x0A then [] :: split_lines s'
      else match split_lines s' with
           | l :: ls => (c :: l) :: ls
           | [] => [[c]]
           end
  end.

(** Modelled from the spec: a line split at its first colon. *)
Fixpoint break_colon (s : str) : option (str * str) :=
  match s with
  | [] => None
  | c :: s' =>
      if c =? 0x3A then Some ([], s')
      else match break_colon s' with
           | Some (k, v) => Some (c :: k, v)
           | None => None
           end
  end.

(** Modelled from the spec: a key is a contiguous, non-empty token without
    white space (and, being cut at the first colon, without colon). *)
Definition is_key (k : str) : bool :=
  match k with
  | [] => false
  | _ :: _ => forallb (fun c => negb (isspace c)) k
  end.

(** Modelled from the spec: [key: value], the value being the remainder of
    the line, trimmed. *)
Definition parse_line (line : str) : option (str * str) :=
  match break_colon line with
  | Some (k, v) => if is_key k then Some (k, strip v) else None
  | None => None
  end.

(** Modelled from the spec: a blank line is empty once trimmed. *)
Definition is_blank (line : str) : bool :=
  match strip line with [] => true | _ :: _ => false end.

(** Modelled from the spec: the lines before the first closing delimiter
    line, and those after it. *)
Fixpoint find_closing (lines : list str) : option (list str * list str) :=
  match lines with
  | [] => None
  | l :: rest =>
      if decide (l = DELIMITER) then Some ([], rest)
      else match find_closing rest with
           | Some (block, after) => Some (l :: block, after)
           | None => None
           end
  end.

(** Modelled from the spec: the lines of the block, in order, into the
    mapping, blank lines skipped; [lineno] is the number of the first of them
    in the document. *)
Fixpoint parse_block (lines : list str) (lineno : N) (metadata : MetadataBlock)
  : outcome MetadataBlock :=
  match lines with
  | [] => Return metadata
  | l :: rest =>
      if is_blank l then parse_block rest (lineno + 1) metadata
      else match parse_line l with
           | Some (k, v) =>
               parse_block rest (lineno + 1) (<[k := VStr v]> metadata)
           | None =>
               Raise (ParseError (py "malformed metadata at line "
                                    ++ decimal lineno ++ py ": " ++ l))
           end
  end.

(** Modelled from the spec: [parser.py] is not part of the sources; this is
    the algorithm of the spec's section 4.1, steps 1 to 6.  Lines end at a
    line feed, values are kept as strings. *)
Definition parse_frontmatter (document : str) : outcome (MetadataBlock * str) :=
  match split_lines document with
  | first :: rest =>
      if decide (first = DELIMITER) then
        match find_closing rest with
        | Some (block, after) =>
            match parse_block block 2 ∅ with
            | Return metadata => Return (metadata, join LF after)
            | Raise e => Raise e
            end
        | None => Raise (ParseError (py "missing closing delimiter"))
        end
      else Raise (ParseError (py "missing opening delimiter"))
  | [] => Raise (ParseError (py "missing opening delimiter"))
  end.

Section Validator.

(** Modelled from the spec: the "as string" accessor on scalars that are not
    strings; the spec names it and leaves its result open. *)
Variable coerce : value -> str.

(** Modelled from the spec: the checks of rule 3, which need a directory;
    the spec leaves the set of them open. *)
Variable context_checks : str -> MetadataBlock -> list str.

(** Modelled from the spec: the single accessor the required-field checks
    read a value through. *)
Definition as_string (v : value) : str :=
  match v with
  | VStr s => s
  | _ => coerce v
  end.

(** Modelled from the spec: rules 1 and 2 of [validator.py]; a required key
    is present, and its value is a non-empty string after trimming. *)
Definition check_required (field : str) (metadata : MetadataBlock)
  : list str :=
  match metadata !! field with
  | None => [py "missing required field: " ++ field]
  | Some v =>
      match strip (as_string v) with
      | [] => [py "field '" ++ field ++ py "' must be a non-empty string"]
      | _ :: _ => []
      end
  end.

(** Modelled from the spec: the rules in evaluation order; without a context
    rule 3 is skipped. *)
Definition rules (context : option str)
  : list (MetadataBlock -> list str) :=
  [check_required (py "name"); check_required (py "description")]
  ++ match context with
     | Some dir => [context_checks dir]
     | None => []
     end.

(** Modelled from the spec: [validator.py] is not part of the sources;
    this is the rule list of the spec's section 4.2: every rule runs, and
    each appends its Problems to the list returned. *)
Definition validate_metadata (metadata : MetadataBlock)
    (context : option str) : list str :=
  fold_left (fun errors rule => errors ++ rule metadata) (rules context) [].

End Validator.

End Core.

(** ** Vocabulary of the statements *)

(** [len(request.content.encode('utf-8'))], when the content has an encoding. *)
Definition content_size (request : ValidationTextRequest) : option N :=
  match encode_utf8 (content request) with
  | Some bytes => Some (N.of_nat (length bytes))
  | None => None
  end.

(** The content is at most 1,000,000 UTF-8 bytes long. *)
Definition within_limit (request : ValidationTextRequest) : bool :=
  match content_size request with
  | Some size => size <=? 1000000
  | None => false
  end.

(** The content is more than 1,000,000 UTF-8 bytes long. *)
Definition over_limit (request : ValidationTextRequest) : bool :=
  match content_size request with
  | Some size => 1000000 <? size
  | None => false
  end.

(** The prompt [/prompt/text] builds from a name and a description. *)
Definition prompt_of (n d : str) : str :=
  join LF
    [py "<available_skills>"; py "<skill>";
     py "<name>"; html_escape (strip n); py "</name>";
     py "<description>"; html_escape (strip d); py "</description>";
     py "<location>"; py "memory"; py "</location>";
     py "</skill>"; py "</available_skills>"].

(** What [/validate/text] puts into [problems]: [problems if problems else None]. *)
Definition reported (probs : list str) : option (list str) :=
  match probs with
  | [] => None
  | _ :: _ => Some probs
  end.

Definition no_LF (l : str) : bool := forallb (fun c => negb (c =? 0x0A)) l.

(** A line that can stand inside a metadata block: it holds no line feed and
    is not the delimiter. *)
Definition block_line (l : str) : bool :=
  no_LF l && negb (bool_decide (l = Core.DELIMITER)).

(** The text of a document up to the end of its closing delimiter: the
    opening delimiter line, the lines of the block, each with its line feed,
    and the closing delimiter. *)
Definition header (block : list str) : str :=
  Core.DELIMITER ++ LF ++ flat_map (fun l => l ++ LF) block ++ Core.DELIMITER.

(** The document begins with the delimiter line as its first line: it is the
    delimiter alone, or the delimiter, a line feed and the rest. *)
Definition begins_with_delimiter (document : str) : Prop :=
  document = Core.DELIMITER
  \/ exists rest, document = Core.DELIMITER ++ LF ++ rest.

(** The key a block line assigns, if it has the shape [key: value]. *)
Definition line_key (l : str) : option str :=
  match Core.parse_line l with
  | Some (k, _) => Some k
  | None => None
  end.

(** No line of [lines] assigns the key [k]. *)
Definition key_free (k : str) (lines : list str) : bool :=
  forallb (fun l => negb (bool_decide (line_key l = Some k))) lines.

(** What a document's metadata holds under a key. *)
Definition parsed_value (document key : str) : outcome (option value) :=
  match Core.parse_frontmatter document with
  | Return (metadata, _) => Return (metadata !! key)
  | Raise e => Raise e
  end.

(** ** The handlers on top of the modelled core *)

(** The validator as the handlers call it, with no coercion of scalars and
    no directory checks. *)
Definition core_validate (metadata : MetadataBlock) (skill_dir : option str)
  : outcome (list str) :=
  Return (Core.validate_metadata (fun _ => []) (fun _ _ => []) metadata skill_dir).

(** A rendering of built-in exceptions by their class name. *)
Definition class_name (b : builtin_error) : str :=
  match b with
  | UnicodeEncodeError _ => py "UnicodeEncodeError"
  | AttributeError _ _ => py "AttributeError"
  end.

Definition validate_text (document : str)
  : outcome ValidationResponse * list call :=
  run (validate_skill_text Core.parse_frontmatter core_validate true class_name
         {| content := document |}).

Definition properties_text (document : str)
  : outcome PropertiesResponse * list call :=
  run (get_properties_from_text Core.parse_frontmatter class_name
         {| content := document |}).

Definition prompt_text (document : str)
  : outcome PromptResponse * list call :=
  run (generate_prompt_text Core.parse_frontmatter class_name
         {| content := document |}).

(** Documents used below. *)

(** ["---\n---\n"]: an empty block. *)
Definition doc_empty_block : str := py "---" ++ LF ++ py "---" ++ LF.

(** ["---\nname: foo\ndescription: bar\n---\nHello"] *)
Definition doc_foo_bar : str :=
  py "---" ++ LF ++ py "name: foo" ++ LF ++ py "description: bar" ++ LF
  ++ py "---" ++ LF ++ py "Hello".

(** ["---\nname:  my-skill \ndescription: A skill\n---\n# Instructions\n"] *)
Definition doc_my_skill : str :=
  py "---" ++ LF ++ py "name:  my-skill " ++ LF ++ py "description: A skill"
  ++ LF ++ py "---" ++ LF ++ py "# Instructions" ++ LF.

(** ["---\nname: \ndescription: x\n---\n"]: a name that is empty once trimmed. *)
Definition doc_blank_name : str :=
  py "---" ++ LF ++ py "name: " ++ LF ++ py "description: x" ++ LF
  ++ py "---" ++ LF.

(** ["---\nname: \n---\n"]: an empty name and no description. *)
Definition doc_name_only : str :=
  py "---" ++ LF ++ py "name: " ++ LF ++ py "---" ++ LF.

(** ["---\nname: a\nname: b\n---\n"]: the key [name] on two lines. *)
Definition doc_name_twice : str :=
  py "---" ++ LF ++ py "name: a" ++ LF ++ py "name: b" ++ LF ++ py "---" ++ LF.

(** ["# no frontmatter"] *)
Definition doc_no_frontmatter : str := py "# no frontmatter".

(** 250,001 code points of four bytes each. *)
Definition doc_oversize : str := repeat 0x1F600 (N.to_nat 250001).

(** The metadata of [doc_foo_bar]. *)
Definition md_foo_bar : MetadataBlock :=
  <[py "description" := VStr (py "bar")]> (<[py "name" := VStr (py "foo")]> ∅).

(** The metadata of [doc_name_twice]. *)
Definition md_name_b : MetadataBlock := <[py "name" := VStr (py "b")]> ∅.

(** The metadata of [doc_blank_name]. *)
Definition md_blank_name : MetadataBlock :=
  <[py "description" := VStr (py "x")]> (<[py "name" := VStr []]> ∅).

(** ** Vocabulary of the further properties *)

(** [isinstance(v, str)] *)
Definition is_VStr (v : value) : bool :=
  match v with
  | VStr _ => true
  | _ => false
  end.

(** The string is white space throughout. *)
Definition whitespace_only (s : str) : bool := forallb isspace s.

(** How often a code point occurs in a string. *)
Definition occurrences (c : N) (s : str) : nat := count_occ N.eq_dec s c.

(** The code points [encode_utf8] has bytes for. *)
Definition encodable (s : str) : bool :=
  forallb (fun c => (c <? 0x110000) && negb (is_surrogate c)) s.



(** What the size check makes of a run, given the byte count of the content:
    above the limit the run is the 413 with no core call, otherwise its first
    core call is the parser on the content. *)
Definition size_gate {A} (size : N) (document : str)
    (r : outcome A * list call) : Prop :=
  if 1000000 <? size
  then r = (Raise (HTTPException 413 (size_detail size)), [])
  else exists rest, snd r = CallParse document :: rest.

(** The metadata alone of what a parser made of a document. *)
Definition metadata_of (r : outcome (MetadataBlock * str))
  : outcome MetadataBlock :=
  match r with
  | Return (metadata, _) => Return metadata
  | Raise e => Raise e
  end.

(** A parser that answers every document with the same metadata and an empty
    body. *)
Definition parse_const (metadata : MetadataBlock) (document : str)
  : outcome (MetadataBlock * str) :=
  Return (metadata, []).



(** Metadata whose [name] is a number. *)
Definition md_numeric_name : MetadataBlock :=
  <[py "description" := VStr (py "x")]> (<[py "name" := VNum 3]> ∅).

(** Metadata whose [description] is null. *)
Definition md_null_description : MetadataBlock :=
  <[py "description" := VNull]> (<[py "name" := VStr (py "x")]> ∅).

(** Metadata whose [name] carries white space around it and markup inside. *)
Definition md_padded_name : MetadataBlock :=
  <[py "description" := VStr (py " says 'hi' ")]>
    (<[py "name" := VStr (py "  <b>Tom & Jerry</b> ")]> ∅).

(** 250,000 code points of four bytes each: 1,000,000 bytes. *)
Definition doc_at_limit : str := repeat 0x1F600 (N.to_nat 250000).

(** A lone surrogate between two letters. *)
Definition doc_surrogate : str := [0x61; 0xD800; 0x62].

(** [not isinstance(v, str) or not v.strip()], spelled without [strip]: the
    value is no string, or a string of white space only. *)
Definition blank_or_not_string (v : value) : bool :=
  match v with
  | VStr s => whitespace_only s
  | _ => true
  end.

(** The string is not empty and neither begins nor ends with white space. *)
Definition is_trimmed (s : str) : bool :=
  match s with
  | [] => false
  | c :: _ => negb (isspace c) && negb (isspace (List.last s c))
  end.

(** [s] is [inner] with nothing but white space before and after it. *)
Definition padded (inner s : str) : Prop :=
  exists before after,
    s = before ++ inner ++ after
    /\ whitespace_only before = true /\ whitespace_only after = true.

(** The three fixed stretches of a prompt: before the name, between the name
    and the description, and after the description. *)
Definition prompt_open : str :=
  py "<available_skills>" ++ LF ++ py "<skill>" ++ LF ++ py "<name>" ++ LF.

Definition prompt_between : str :=
  LF ++ py "</name>" ++ LF ++ py "<description>" ++ LF.

Definition prompt_close : str :=
  LF ++ py "</description>" ++ LF ++ py "<location>" ++ LF ++ py "memory"
  ++ LF ++ py "</location>" ++ LF ++ py "</skill>" ++ LF
  ++ py "</available_skills>".

(** ["---\nname:   foo  \ndescription: bar\n---\nOther"]: [doc_foo_bar] with
    white space around the name and another body. *)
Definition doc_foo_bar_spaced : str :=
  py "---" ++ LF ++ py "name:   foo  " ++ LF ++ py "description: bar" ++ LF
  ++ py "---" ++ LF ++ py "Other".

(** Requests of one letter, for collaborators that do not read the content. *)
Definition request_x : ValidationTextRequest := {| content := py "x" |}.

(** * Properties of the handlers *)

Lemma within_limit_size (request : ValidationTextRequest) (t : list call) :
  within_limit request = true ->
  exists size,
    utf8_size (content request) t = (Return size, t)
    /\ (1000000 <? size) = false.
Proof.
  unfold within_limit, content_size, utf8_size.
  destruct (encode_utf8 (content request)) as [bytes|]; [|discriminate].
  intros H. exists (N.of_nat (length bytes)). split; [reflexivity|].
  apply N.ltb_ge, N.leb_le. exact H.
Qed.

Lemma over_limit_size (request : ValidationTextRequest) (t : list call) :
  over_limit request = true ->
  exists size,
    utf8_size (content request) t = (Return size, t)
    /\ (1000000 <? size) = true.
Proof.
  unfold over_limit, content_size, utf8_size.
  destruct (encode_utf8 (content request)) as [bytes|]; [|discriminate].
  intros H. exists (N.of_nat (length bytes)). auto.
Qed.

(** Unfold a handler down to the functions of the monad. *)
Ltac unfold_handler :=
  unfold run, validate_skill_text, get_properties_from_text,
    generate_prompt_text, try_except, bind, invoke, ret, raise.

(** Step a handler through its size check, [H] telling on which side of the
    limit the request is. *)
Ltac size_check H :=
  let size := fresh "size" in
  let E := fresh "E" in
  let L := fresh "L" in
  unfold_handler;
  first [ destruct (within_limit_size _ [] H) as (size & E & L)
        | destruct (over_limit_size _ [] H) as (size & E & L) ];
  rewrite E, L; cbn [app fst snd].

Section HandlerFacts.

Variable parse_frontmatter : str -> outcome (MetadataBlock * str).
Variable validate_metadata : MetadataBlock -> option str -> outcome (list str).
Variable ParseError_is_SkillError : bool.
Variable str_builtin : builtin_error -> str.

(** What [/validate/text] answers once the document has parsed and the
    validator has returned its list. *)
Lemma validate_text_returns (request : ValidationTextRequest)
    (metadata : MetadataBlock) (body : str) (probs : list str) :
  within_limit request = true ->
  parse_frontmatter (content request) = Return (metadata, body) ->
  validate_metadata metadata None = Return probs ->
  run (validate_skill_text parse_frontmatter validate_metadata
         ParseError_is_SkillError str_builtin request)
  = (Return {| valid := Nat.eqb (length probs) 0;
               problems := reported probs |},
     [CallParse (content request); CallValidate metadata None]).
Proof.
  intros HL HP HV.
  size_check HL. rewrite HP. cbn. rewrite HV. reflexivity.
Qed.

(** C4: a request whose content is more than 1,000,000 UTF-8 bytes long is
    answered by each of the three text handlers with an HTTPException of
    status 413, and the trace of core calls is empty: neither
    [parse_frontmatter] nor [validate_metadata] has been invoked. *)
Theorem oversize_rejected_before_core (request : ValidationTextRequest) :
  over_limit request = true ->
  exists detail,
    run (validate_skill_text parse_frontmatter validate_metadata
           ParseError_is_SkillError str_builtin request)
    = (Raise (HTTPException 413 detail), [])
    /\ run (get_properties_from_text parse_frontmatter str_builtin request)
       = (Raise (HTTPException 413 detail), [])
    /\ run (generate_prompt_text parse_frontmatter str_builtin request)
       = (Raise (HTTPException 413 detail), []).
Proof.
  intros HL.
  destruct (over_limit_size _ [] HL) as (size & E & L).
  exists (size_detail size).
  unfold_handler. rewrite E, L. auto.
Qed.

(** C2: when the document parses and [validate_metadata] returns a list of
    Problems, [/validate/text] answers with a ValidationResponse whose
    [valid] is true exactly when that list is empty. *)
Theorem valid_iff_no_problems (request : ValidationTextRequest)
    (metadata : MetadataBlock) (body : str) (probs : list str) :
  within_limit request = true ->
  parse_frontmatter (content request) = Return (metadata, body) ->
  validate_metadata metadata None = Return probs ->
  exists response,
    run (validate_skill_text parse_frontmatter validate_metadata
           ParseError_is_SkillError str_builtin request)
    = (Return response,
       [CallParse (content request); CallValidate metadata None])
    /\ (valid response = true <-> probs = []).
Proof.
  intros HL HP HV.
  eexists. split.
  - apply (validate_text_returns _ _ _ _ HL HP HV).
  - cbn. destruct probs; cbn; split; congruence.
Qed.

(** C10: when [parse_frontmatter] raises a ParseError, [/validate/text]
    raises nothing: it returns a response with [valid] false and a
    [problems] list holding exactly the ParseError's message, and the
    validator is not called. *)
Theorem parse_error_is_reported_as_problem (request : ValidationTextRequest)
    (msg : str) :
  within_limit request = true ->
  parse_frontmatter (content request) = Raise (ParseError msg) ->
  run (validate_skill_text parse_frontmatter validate_metadata
         ParseError_is_SkillError str_builtin request)
  = (Return {| valid := false; problems := Some [msg] |},
     [CallParse (content request)]).
Proof.
  intros HL HP.
  size_check HL. rewrite HP. reflexivity.
Qed.

(** C9: whenever [/properties/text] returns a response, the document parsed,
    the metadata holds strings under [name] and [description], and the
    response carries those two strings stripped of leading and trailing
    white space. *)
Theorem properties_are_stripped (request : ValidationTextRequest)
    (response : PropertiesResponse) :
  fst (run (get_properties_from_text parse_frontmatter str_builtin request))
  = Return response ->
  exists metadata body n d,
    parse_frontmatter (content request) = Return (metadata, body)
    /\ metadata !! py "name" = Some (VStr n)
    /\ metadata !! py "description" = Some (VStr d)
    /\ name response = strip n
    /\ description response = strip d.
Proof.
  unfold_handler.
  destruct (utf8_size (content request) []) as [[size|e] t]; cbn;
    [|destruct e; discriminate].
  destruct (1000000 <? size); cbn; [discriminate|].
  destruct (parse_frontmatter (content request)) as [[metadata body]|e]; cbn;
    [|destruct e; discriminate].
  destruct (metadata !! py "name") as [v|] eqn:Hn; cbn; [|discriminate].
  destruct (metadata !! py "description") as [w|] eqn:Hd; cbn; [|discriminate].
  destruct v as [n| | |]; cbn; try discriminate.
  destruct (strip n) eqn:Sn; cbn; [discriminate|].
  destruct w as [d| | |]; cbn; try discriminate.
  destruct (strip d) eqn:Sd; cbn; [discriminate|].
  intros [= <-]. exists metadata, body, n, d. cbn. rewrite Sn, Sd. auto.
Qed.

(** C8: when the document parses and the metadata holds strings under
    [name] and [description], [/prompt/text] returns the prompt built from
    them, whatever they strip to; if one of them strips to the empty string,
    [/properties/text] answers the same request with an HTTPException of
    status 400. *)
Theorem prompt_checks_presence_only (request : ValidationTextRequest)
    (metadata : MetadataBlock) (body n d : str) :
  within_limit request = true ->
  parse_frontmatter (content request) = Return (metadata, body) ->
  metadata !! py "name" = Some (VStr n) ->
  metadata !! py "description" = Some (VStr d) ->
  run (generate_prompt_text parse_frontmatter str_builtin request)
  = (Return {| prompt := prompt_of n d |}, [CallParse (content request)])
  /\ (strip n = [] \/ strip d = [] ->
      exists detail,
        run (get_properties_from_text parse_frontmatter str_builtin request)
        = (Raise (HTTPException 400 detail), [CallParse (content request)])).
Proof.
  intros HL HP Hn Hd. split.
  - size_check HL. rewrite HP. cbn [fst]. rewrite Hn, Hd. reflexivity.
  - intros Hempty. size_check HL. rewrite HP. cbn [fst]. rewrite Hn, Hd.
    destruct (strip n) eqn:Sn.
    + eexists. reflexivity.
    + destruct Hempty as [?|Sd]; [discriminate|]. rewrite Sd.
      eexists. reflexivity.
Qed.

(** With both keys present and a [name] that is not a string, or is one that
    strips to the empty string, [/properties/text] raises an HTTPException
    of status 400 whose detail is "Field 'name' must be a non-empty string". *)
Lemma properties_rejects_empty_name (request : ValidationTextRequest)
    (metadata : MetadataBlock) (body : str) (v w : value) :
  within_limit request = true ->
  parse_frontmatter (content request) = Return (metadata, body) ->
  metadata !! py "name" = Some v ->
  metadata !! py "description" = Some w ->
  (forall s, v = VStr s -> strip s = []) ->
  run (get_properties_from_text parse_frontmatter str_builtin request)
  = (Raise (HTTPException 400 (py "Field 'name' must be a non-empty string")),
     [CallParse (content request)]).
Proof.
  intros HL HP Hn Hd Hv.
  size_check HL. rewrite HP. cbn [fst]. rewrite Hn, Hd.
  destruct v as [s| | |]; try reflexivity.
  rewrite (Hv s eq_refl). reflexivity.
Qed.

(** With [name] present and [description] absent, [/properties/text] reports
    the missing description, whatever the name is. *)
Lemma properties_reports_missing_description (request : ValidationTextRequest)
    (metadata : MetadataBlock) (body : str) (v : value) :
  within_limit request = true ->
  parse_frontmatter (content request) = Return (metadata, body) ->
  metadata !! py "name" = Some v ->
  metadata !! py "description" = None ->
  run (get_properties_from_text parse_frontmatter str_builtin request)
  = (Raise (HTTPException 400
              (py "Missing required field in frontmatter: description")),
     [CallParse (content request)]).
Proof.
  intros HL HP Hn Hd.
  size_check HL. rewrite HP. cbn [fst]. rewrite Hn, Hd. reflexivity.
Qed.

End HandlerFacts.

(** * Properties of the core *)

(** ** Strings *)

Lemma join_cons_char (sep : str) (c : N) (l : str) (ls : list str) :
  join sep ((c :: l) :: ls) = c :: join sep (l :: ls).
Proof. destruct ls; reflexivity. Qed.

Lemma join_cons_cons (sep l l' : str) (ls : list str) :
  join sep (l :: l' :: ls) = l ++ sep ++ join sep (l' :: ls).
Proof. reflexivity. Qed.

Lemma lstrip_head (s t : str) (c : N) : lstrip s = c :: t -> isspace c = false.
Proof.
  induction s as [|a s IH]; cbn; [discriminate|].
  destruct (isspace a) eqn:Ha; [exact IH|].
  intros [= <- _]. exact Ha.
Qed.

Lemma lstrip_nil (s : str) : lstrip s = [] -> forallb isspace s = true.
Proof.
  induction s as [|a s IH]; cbn; [reflexivity|].
  destruct (isspace a); [exact IH|discriminate].
Qed.

Lemma forallb_rev {A} (f : A -> bool) (l : list A) :
  forallb f (rev l) = forallb f l.
Proof.
  induction l as [|a l IH]; [reflexivity|].
  cbn [rev forallb]. rewrite forallb_app, IH. cbn.
  rewrite andb_true_r. apply andb_comm.
Qed.

(** A string strips to nothing only if it is white space throughout. *)
Lemma strip_nil (s : str) : strip s = [] -> forallb isspace s = true.
Proof.
  unfold strip, rstrip. intros H.
  apply (f_equal (@rev N)) in H. rewrite rev_involutive in H. cbn in H.
  apply lstrip_nil in H. rewrite forallb_rev in H.
  destruct (lstrip s) as [|c t] eqn:E.
  - apply lstrip_nil. exact E.
  - apply lstrip_head in E. cbn in H. rewrite E in H. discriminate.
Qed.

Lemma encode_utf8_app (a b : str) (bytes : list N) :
  encode_utf8 (a ++ b) = Some bytes ->
  exists xs ys,
    encode_utf8 a = Some xs /\ encode_utf8 b = Some ys /\ bytes = xs ++ ys.
Proof.
  revert bytes. induction a as [|c a IH]; intros bytes; cbn.
  - intros H. exists [], bytes. auto.
  - destruct (utf8_char c) as [cs|]; [|discriminate].
    destruct (encode_utf8 (a ++ b)) as [rest|]; [|discriminate].
    intros [= <-]. destruct (IH rest eq_refl) as (xs & ys & -> & -> & ->).
    exists (cs ++ xs), ys. rewrite app_assoc. auto.
Qed.

(** ** Lines *)

Import Core.

Lemma split_lines_nonempty (s : str) : split_lines s <> [].
Proof.
  induction s as [|c s IH]; cbn; [discriminate|].
  destruct (c =? 0x0A); [discriminate|].
  destruct (split_lines s); [contradiction|discriminate].
Qed.

(** Joining the lines of a document with line feeds gives the document back. *)
Lemma join_split_lines (s : str) : join LF (split_lines s) = s.
Proof.
  induction s as [|c s IH]; [reflexivity|].
  cbn [split_lines].
  pose proof (split_lines_nonempty s) as NE.
  destruct (split_lines s) as [|l ls]; [contradiction|].
  destruct (c =? 0x0A) eqn:Ec.
  - apply N.eqb_eq in Ec. subst c.
    rewrite join_cons_cons, IH. reflexivity.
  - rewrite join_cons_char, IH. reflexivity.
Qed.

Lemma split_lines_no_LF (s : str) : Forall (fun l => no_LF l = true) (split_lines s).
Proof.
  induction s as [|c s IH]; cbn [split_lines].
  - repeat constructor.
  - destruct (c =? 0x0A) eqn:Ec.
    + constructor; [reflexivity|exact IH].
    + destruct (split_lines s) as [|l ls].
      * repeat constructor. cbn. rewrite Ec. reflexivity.
      * inversion IH as [|? ? Hl Hls]; subst. constructor; [|exact Hls].
        cbn. rewrite Ec. exact Hl.
Qed.

Lemma split_lines_line (l s : str) :
  no_LF l = true -> split_lines (l ++ LF ++ s) = l :: split_lines s.
Proof.
  induction l as [|c l IH]; cbn [no_LF forallb]; intros H.
  - reflexivity.
  - apply andb_true_iff in H as [Hc Hl].
    apply negb_true_iff in Hc.
    cbn [app split_lines]. rewrite Hc.
    rewrite (IH Hl). reflexivity.
Qed.

Lemma split_lines_last (l : str) : no_LF l = true -> split_lines l = [l].
Proof.
  induction l as [|c l IH]; cbn [no_LF forallb]; intros H; [reflexivity|].
  apply andb_true_iff in H as [Hc Hl]. apply negb_true_iff in Hc.
  cbn [split_lines]. rewrite Hc, (IH Hl). reflexivity.
Qed.

(** ** The parser *)

Lemma block_line_spec (l : str) :
  block_line l = true <-> no_LF l = true /\ l <> DELIMITER.
Proof.
  unfold block_line. rewrite andb_true_iff, negb_true_iff, bool_decide_eq_false.
  reflexivity.
Qed.

Lemma find_closing_block (block after : list str) :
  forallb block_line block = true ->
  find_closing (block ++ DELIMITER :: after) = Some (block, after).
Proof.
  induction block as [|l block IH]; cbn [forallb app find_closing]; intros H.
  - rewrite decide_True by reflexivity. reflexivity.
  - apply andb_true_iff in H as [Hl Hb]. apply block_line_spec in Hl as [_ Hl].
    rewrite decide_False by exact Hl. rewrite (IH Hb). reflexivity.
Qed.

Lemma find_closing_inv (lines block after : list str) :
  Forall (fun l => no_LF l = true) lines ->
  find_closing lines = Some (block, after) ->
  lines = block ++ DELIMITER :: after /\ forallb block_line block = true.
Proof.
  revert block. induction lines as [|l lines IH]; intros block HF; cbn.
  - discriminate.
  - inversion HF as [|? ? Hl Hls]; subst.
    destruct (decide (l = DELIMITER)) as [->|Hne].
    + intros [= <- <-]. auto.
    + destruct (find_closing lines) as [[b a]|] eqn:E; [|discriminate].
      intros [= <- <-]. destruct (IH b Hls eq_refl) as [-> Hb].
      split; [reflexivity|]. cbn. rewrite Hb, andb_true_r.
      apply block_line_spec. auto.
Qed.

Lemma split_lines_block (block : list str) (s : str) :
  forallb block_line block = true ->
  split_lines (flat_map (fun l => l ++ LF) block ++ s) = block ++ split_lines s.
Proof.
  induction block as [|l block IH]; cbn [forallb flat_map app]; intros H.
  - reflexivity.
  - apply andb_true_iff in H as [Hl Hb]. apply block_line_spec in Hl as [Hl _].
    rewrite <- !app_assoc. rewrite (split_lines_line _ _ Hl), (IH Hb).
    reflexivity.
Qed.

Lemma no_LF_DELIMITER : no_LF DELIMITER = true.
Proof. reflexivity. Qed.

(** The lines of a document made of a header and what follows it. *)
Lemma split_lines_header_body (block : list str) (body : str) :
  forallb block_line block = true ->
  split_lines (header block ++ LF ++ body)
  = DELIMITER :: block ++ DELIMITER :: split_lines body.
Proof.
  intros H. unfold header. rewrite <- !app_assoc.
  rewrite (split_lines_line _ _ no_LF_DELIMITER).
  rewrite (split_lines_block _ _ H).
  rewrite (split_lines_line _ _ no_LF_DELIMITER). reflexivity.
Qed.

Lemma split_lines_header (block : list str) :
  forallb block_line block = true ->
  split_lines (header block) = DELIMITER :: block ++ [DELIMITER].
Proof.
  intros H. unfold header.
  rewrite (split_lines_line _ _ no_LF_DELIMITER).
  rewrite (split_lines_block _ _ H).
  rewrite (split_lines_last _ no_LF_DELIMITER). reflexivity.
Qed.

Lemma join_block (block after : list str) :
  join LF (block ++ DELIMITER :: after)
  = flat_map (fun l => l ++ LF) block ++ DELIMITER
    ++ match after with [] => [] | _ :: _ => LF ++ join LF after end.
Proof.
  induction block as [|l block IH].
  - destruct after; cbn [app flat_map join]; [rewrite app_nil_r|]; reflexivity.
  - cbn [app flat_map].
    destruct (block ++ DELIMITER :: after) as [|l' ls] eqn:E.
    + destruct block; discriminate.
    + rewrite join_cons_cons, IH, <- !app_assoc. reflexivity.
Qed.

(** What the parser does on a header followed by a body: the outcome is that
    of the block, and the body comes back as it is. *)
Lemma parse_header_body (block : list str) (body : str) :
  forallb block_line block = true ->
  parse_frontmatter (header block ++ LF ++ body)
  = match parse_block block 2 ∅ with
    | Return metadata => Return (metadata, body)
    | Raise e => Raise e
    end.
Proof.
  intros H. unfold parse_frontmatter.
  rewrite (split_lines_header_body _ _ H).
  rewrite decide_True by reflexivity.
  rewrite (find_closing_block _ _ H), join_split_lines. reflexivity.
Qed.

Lemma parse_header_only (block : list str) :
  forallb block_line block = true ->
  parse_frontmatter (header block)
  = match parse_block block 2 ∅ with
    | Return metadata => Return (metadata, [])
    | Raise e => Raise e
    end.
Proof.
  intros H. unfold parse_frontmatter.
  rewrite (split_lines_header _ H).
  rewrite decide_True by reflexivity.
  rewrite (find_closing_block _ _ H). reflexivity.
Qed.

(** A successful parse shows the document to be a header followed by the
    body: either the closing delimiter ends the document and the body is
    empty, or the body is all that follows the closing delimiter's line
    feed. *)
Lemma parse_frontmatter_inv (document : str) (metadata : MetadataBlock)
    (body : str) :
  parse_frontmatter document = Return (metadata, body) ->
  exists block,
    forallb block_line block = true
    /\ parse_block block 2 ∅ = Return metadata
    /\ (document = header block ++ LF ++ body
        \/ (document = header block /\ body = [])).
Proof.
  unfold parse_frontmatter. intros H.
  pose proof (join_split_lines document) as J.
  pose proof (split_lines_no_LF document) as NL.
  destruct (split_lines document) as [|first rest]; [discriminate|].
  destruct (decide (first = DELIMITER)) as [->|]; [|discriminate].
  pose proof (Forall_inv_tail NL) as NLrest.
  destruct (find_closing rest) as [[block after]|] eqn:F; [|discriminate].
  destruct (find_closing_inv _ _ _ NLrest F) as [-> Hb].
  destruct (parse_block block 2 ∅) as [md|] eqn:PB; [|discriminate].
  injection H as <- <-.
  exists block. split; [exact Hb|]. split; [exact PB|].
  assert (E : join LF (DELIMITER :: block ++ DELIMITER :: after)
              = header block
                ++ match after with [] => [] | _ :: _ => LF ++ join LF after end).
  { destruct (block ++ DELIMITER :: after) as [|l' ls] eqn:E.
    - destruct block; discriminate.
    - rewrite join_cons_cons, <- E, join_block. unfold header.
      rewrite <- !app_assoc. reflexivity. }
  rewrite E in J. destruct after as [|a after].
  - right. rewrite app_nil_r in J. auto.
  - left. symmetry. exact J.
Qed.

(** C5: a document that does not begin with the delimiter line (three
    hyphens) as its first line, the empty document among them, makes the
    parser raise a ParseError, so that no metadata is returned. *)
Theorem missing_opening_delimiter (document : str) :
  ~ begins_with_delimiter document ->
  parse_frontmatter document
  = Raise (ParseError (py "missing opening delimiter")).
Proof.
  intros H. unfold parse_frontmatter.
  pose proof (join_split_lines document) as J.
  destruct (split_lines document) as [|first rest]; [reflexivity|].
  destruct (decide (first = DELIMITER)) as [->|]; [|reflexivity].
  exfalso. apply H. destruct rest as [|l ls].
  - left. symmetry. exact J.
  - right. exists (join LF (l :: ls)). rewrite join_cons_cons in J.
    symmetry. exact J.
Qed.

(** C7: when a document parses, it consists of the header (opening delimiter
    line, block lines, closing delimiter) followed either by nothing, the
    body then being empty, or by the closing delimiter's line feed and then
    the body, unchanged; and the bytes of the body are the trailing bytes of
    the document's UTF-8 encoding. *)
Theorem body_is_verbatim (document : str) (metadata : MetadataBlock)
    (body : str) :
  parse_frontmatter document = Return (metadata, body) ->
  (exists block,
      forallb block_line block = true
      /\ (document = header block ++ LF ++ body
          \/ (document = header block /\ body = [])))
  /\ (forall bytes, encode_utf8 document = Some bytes ->
      exists before body_bytes,
        encode_utf8 body = Some body_bytes /\ bytes = before ++ body_bytes).
Proof.
  intros H.
  destruct (parse_frontmatter_inv _ _ _ H) as (block & Hb & _ & Hdoc).
  split; [exists block; auto|].
  intros bytes E. destruct Hdoc as [->|[-> ->]].
  - rewrite app_assoc in E.
    destruct (encode_utf8_app _ _ _ E) as (xs & ys & _ & Hy & ->).
    exists xs, ys. auto.
  - exists bytes, []. rewrite app_nil_r. auto.
Qed.

Lemma break_colon_spec (l k v : str) :
  break_colon l = Some (k, v) -> l = k ++ 0x3A :: v.
Proof.
  revert k. induction l as [|c l IH]; intros k; cbn; [discriminate|].
  destruct (c =? 0x3A) eqn:Ec.
  - apply N.eqb_eq in Ec. intros [= <- <-]. subst c. reflexivity.
  - destruct (break_colon l) as [[k' v']|]; [|discriminate].
    intros [= <- <-]. rewrite (IH k' eq_refl). reflexivity.
Qed.

(** A line of the shape [key: value] is not blank. *)
Lemma parse_line_not_blank (l k v : str) :
  parse_line l = Some (k, v) -> is_blank l = false.
Proof.
  unfold parse_line, is_blank.
  destruct (break_colon l) as [[k' v']|] eqn:B; [|discriminate].
  destruct (is_key k') eqn:K; [|discriminate]. intros _.
  apply break_colon_spec in B. subst l.
  destruct k' as [|c k']; [discriminate|]. cbn in K.
  apply andb_true_iff in K as [Hc _]. apply negb_true_iff in Hc.
  destruct (strip ((c :: k') ++ 0x3A :: v')) eqn:S; [|reflexivity].
  apply strip_nil in S. cbn in S. rewrite Hc in S. discriminate.
Qed.

Lemma parse_block_key_free (post : list str) (k : str) (n : N)
    (metadata metadata' : MetadataBlock) :
  key_free k post = true ->
  parse_block post n metadata = Return metadata' ->
  metadata' !! k = metadata !! k.
Proof.
  revert n metadata.
  induction post as [|l post IH]; intros n metadata; cbn [key_free forallb parse_block].
  - intros _ [= <-]. reflexivity.
  - intros H. apply andb_true_iff in H as [Hl Hpost].
    apply negb_true_iff, bool_decide_eq_false in Hl. unfold line_key in Hl.
    destruct (is_blank l); [apply IH; exact Hpost|].
    destruct (parse_line l) as [[k' v']|]; [|discriminate].
    intros H. rewrite (IH _ _ Hpost H).
    apply lookup_insert_ne. congruence.
Qed.

(** The block's last line for a key decides the key's value. *)
Lemma parse_block_last_wins (pre post : list str) (line k v : str) (n : N)
    (metadata metadata' : MetadataBlock) :
  parse_line line = Some (k, v) ->
  key_free k post = true ->
  parse_block (pre ++ line :: post) n metadata = Return metadata' ->
  metadata' !! k = Some (VStr v).
Proof.
  intros HL HP. revert n metadata.
  induction pre as [|l pre IH]; intros n metadata; cbn [app parse_block].
  - rewrite (parse_line_not_blank _ _ _ HL), HL. intros H.
    rewrite (parse_block_key_free _ _ _ _ _ HP H). apply lookup_insert_eq.
  - destruct (is_blank l); [apply IH|].
    destruct (parse_line l) as [[k' v']|]; [apply IH|discriminate].
Qed.

(** C6: when a block assigns a key on several lines, the mapping a successful
    parse returns holds the value of the last of those lines; so
    "---\nname: a\nname: b\n---\n" yields "b" for [name], and with the two
    lines exchanged it yields "a". *)
Theorem last_value_wins :
  (forall (pre post : list str) (line k v document : str)
          (metadata : MetadataBlock) (body : str),
      forallb block_line (pre ++ line :: post) = true ->
      parse_line line = Some (k, v) ->
      key_free k post = true ->
      (document = header (pre ++ line :: post)
       \/ exists rest, document = header (pre ++ line :: post) ++ LF ++ rest) ->
      parse_frontmatter document = Return (metadata, body) ->
      metadata !! k = Some (VStr v))
  /\ parsed_value doc_name_twice (py "name") = Return (Some (VStr (py "b")))
  /\ parsed_value (py "---" ++ LF ++ py "name: b" ++ LF ++ py "name: a" ++ LF
                   ++ py "---" ++ LF) (py "name")
     = Return (Some (VStr (py "a"))).
Proof.
  split; [|split; vm_compute; reflexivity].
  intros pre post line k v document metadata body Hb HL HP Hdoc H.
  assert (PB : parse_block (pre ++ line :: post) 2 ∅ = Return metadata).
  { destruct Hdoc as [->|[rest ->]].
    - rewrite (parse_header_only _ Hb) in H.
      destruct (parse_block (pre ++ line :: post) 2 ∅); congruence.
    - rewrite (parse_header_body _ _ Hb) in H.
      destruct (parse_block (pre ++ line :: post) 2 ∅); congruence. }
  exact (parse_block_last_wins _ _ _ _ _ _ _ _ HL HP PB).
Qed.

(** ** The validator *)

Lemma fold_rules (metadata : MetadataBlock)
    (rs : list (MetadataBlock -> list str)) (errors : list str) :
  fold_left (fun errors rule => errors ++ rule metadata) rs errors
  = errors ++ concat (map (fun rule => rule metadata) rs).
Proof.
  revert errors. induction rs as [|r rs IH]; intros errors; cbn.
  - rewrite app_nil_r. reflexivity.
  - rewrite IH, <- app_assoc. reflexivity.
Qed.

(** The list returned is the concatenation of what every rule reports. *)
Lemma validate_metadata_collects (coerce : value -> str)
    (context_checks : str -> MetadataBlock -> list str)
    (metadata : MetadataBlock) (context : option str) :
  validate_metadata coerce context_checks metadata context
  = concat (map (fun rule => rule metadata)
                (rules coerce context_checks context)).
Proof. unfold validate_metadata. apply fold_rules. Qed.


Lemma validate_empty (coerce : value -> str)
    (context_checks : str -> MetadataBlock -> list str) :
  validate_metadata coerce context_checks ∅ None
  = [py "missing required field: name";
     py "missing required field: description"].
Proof.
  rewrite validate_metadata_collects. cbn [rules app map concat].
  unfold check_required. rewrite !lookup_empty. reflexivity.
Qed.

(** What rule 1 reports for a [name] that is present. *)
Lemma check_name_present (coerce : value -> str) (metadata : MetadataBlock)
    (v : value) :
  metadata !! py "name" = Some v ->
  check_required coerce (py "name") metadata
  = match strip (as_string coerce v) with
    | [] => [py "field 'name' must be a non-empty string"]
    | _ :: _ => []
    end.
Proof. intros H. unfold check_required. rewrite H. reflexivity. Qed.

(** The spec's sample calls of the parser and of the validator. *)

Example parse_empty_block :
  parse_frontmatter (py "---" ++ LF ++ py "---" ++ LF ++ py "BODY")
  = Return (∅, py "BODY").
Proof. vm_compute. reflexivity. Qed.

Example parse_foo_bar :
  parse_frontmatter doc_foo_bar = Return (md_foo_bar, py "Hello").
Proof. vm_compute. reflexivity. Qed.

Example parse_unterminated :
  parse_frontmatter (py "---" ++ LF)
  = Raise (ParseError (py "missing closing delimiter")).
Proof. vm_compute. reflexivity. Qed.

Example validate_blank_name :
  validate_metadata (fun _ => []) (fun _ _ => [])
    (<[py "description" := VStr (py "x")]> (<[py "name" := VStr (py "  ")]> ∅))
    None
  = [py "field 'name' must be a non-empty string"].
Proof. vm_compute. reflexivity. Qed.

Example validate_x_y :
  validate_metadata (fun _ => []) (fun _ _ => [])
    (<[py "description" := VStr (py "y")]> (<[py "name" := VStr (py "x")]> ∅))
    None
  = [].
Proof. vm_compute. reflexivity. Qed.

(** * The claims on the validator and its glue *)

(** C1: for the empty mapping and no directory the validator returns exactly
    two Problems, one per missing required field; for every mapping the list
    it returns is the concatenation of what each rule reports, no rule being
    skipped after another has failed; and [/validate/text] answers with the
    whole list [validate_metadata] returned, so that the empty block
    "---\n---\n" is answered with both Problems. *)
Theorem empty_metadata_two_problems :
  (forall (coerce : value -> str)
          (context_checks : str -> MetadataBlock -> list str),
      validate_metadata coerce context_checks ∅ None
      = [py "missing required field: name";
         py "missing required field: description"])
  /\ (forall (coerce : value -> str)
             (context_checks : str -> MetadataBlock -> list str)
             (metadata : MetadataBlock) (context : option str),
         validate_metadata coerce context_checks metadata context
         = concat (map (fun rule => rule metadata)
                       (rules coerce context_checks context)))
  /\ (forall (parse : str -> outcome (MetadataBlock * str))
             (validate : MetadataBlock -> option str -> outcome (list str))
             (ParseError_is_SkillError : bool)
             (str_builtin : builtin_error -> str)
             (request : ValidationTextRequest)
             (metadata : MetadataBlock) (body : str) (probs : list str),
         within_limit request = true ->
         parse (content request) = Return (metadata, body) ->
         validate metadata None = Return probs ->
         run (validate_skill_text parse validate ParseError_is_SkillError
                str_builtin request)
         = (Return {| valid := Nat.eqb (length probs) 0;
                      problems := reported probs |},
            [CallParse (content request); CallValidate metadata None]))
  /\ validate_text doc_empty_block
     = (Return {| valid := false;
                  problems := Some [py "missing required field: name";
                                    py "missing required field: description"] |},
        [CallParse doc_empty_block; CallValidate ∅ None]).
Proof.
  split; [exact validate_empty|].
  split; [exact validate_metadata_collects|].
  split; [exact validate_text_returns|].
  vm_compute. reflexivity.
Qed.

Lemma empty_metadata_two_problems_witness :
  run (validate_skill_text parse_frontmatter core_validate true class_name
         {| content := doc_empty_block |})
  = (Return {| valid := Nat.eqb
                          (length [py "missing required field: name";
                                   py "missing required field: description"]) 0;
               problems := reported [py "missing required field: name";
                                     py "missing required field: description"] |},
     [CallParse doc_empty_block; CallValidate ∅ None]).
Proof.
  apply (proj1 (proj2 (proj2 empty_metadata_two_problems))
           parse_frontmatter core_validate true class_name
           {| content := doc_empty_block |} ∅ []).
  - vm_compute. reflexivity.
  - vm_compute. reflexivity.
  - vm_compute. reflexivity.
Defined.

(** C3, as the code has it: when [name] is present, the validator reports
    "field 'name' must be a non-empty string" if the value read as a string
    is empty after trimming, and rule 1 reports nothing otherwise;
    [/properties/text], given metadata that holds both [name] and
    [description], answers a [name] that is not a string or is empty after
    trimming with status 400 and the detail
    "Field 'name' must be a non-empty string", and answers metadata without
    [description] with the missing-description detail. *)
Theorem name_must_be_nonempty_string :
  (forall (coerce : value -> str)
          (context_checks : str -> MetadataBlock -> list str)
          (metadata : MetadataBlock) (context : option str) (v : value),
      metadata !! py "name" = Some v ->
      (strip (as_string coerce v) = [] ->
       In (py "field 'name' must be a non-empty string")
          (validate_metadata coerce context_checks metadata context))
      /\ (strip (as_string coerce v) <> [] ->
          check_required coerce (py "name") metadata = []))
  /\ (forall (parse : str -> outcome (MetadataBlock * str))
             (str_builtin : builtin_error -> str)
             (request : ValidationTextRequest)
             (metadata : MetadataBlock) (body : str) (v w : value),
         within_limit request = true ->
         parse (content request) = Return (metadata, body) ->
         metadata !! py "name" = Some v ->
         metadata !! py "description" = Some w ->
         (forall s, v = VStr s -> strip s = []) ->
         run (get_properties_from_text parse str_builtin request)
         = (Raise (HTTPException 400
                     (py "Field 'name' must be a non-empty string")),
            [CallParse (content request)]))
  /\ (forall (parse : str -> outcome (MetadataBlock * str))
             (str_builtin : builtin_error -> str)
             (request : ValidationTextRequest)
             (metadata : MetadataBlock) (body : str) (v : value),
         within_limit request = true ->
         parse (content request) = Return (metadata, body) ->
         metadata !! py "name" = Some v ->
         metadata !! py "description" = None ->
         run (get_properties_from_text parse str_builtin request)
         = (Raise (HTTPException 400
                     (py "Missing required field in frontmatter: description")),
            [CallParse (content request)])).
Proof.
  split; [|split].
  - intros coerce context_checks metadata context v Hv. split.
    + intros S. rewrite validate_metadata_collects. cbn [rules app map concat].
      rewrite (check_name_present _ _ _ Hv), S. left. reflexivity.
    + intros S. rewrite (check_name_present _ _ _ Hv).
      destruct (strip (as_string coerce v)); [contradiction|reflexivity].
  - exact properties_rejects_empty_name.
  - exact properties_reports_missing_description.
Qed.

Lemma name_must_be_nonempty_string_witness :
  run (get_properties_from_text parse_frontmatter class_name
         {| content := doc_blank_name |})
  = (Raise (HTTPException 400 (py "Field 'name' must be a non-empty string")),
     [CallParse doc_blank_name]).
Proof.
  apply (proj1 (proj2 name_must_be_nonempty_string)
           parse_frontmatter class_name {| content := doc_blank_name |}
           md_blank_name [] (VStr []) (VStr (py "x"))).
  - vm_compute. reflexivity.
  - vm_compute. reflexivity.
  - vm_compute. reflexivity.
  - vm_compute. reflexivity.
  - intros s [= <-]. vm_compute. reflexivity.
Defined.

(** C3 as the spec words it fails on [/properties/text]: for a [name] that is
    present and empty after trimming the detail of the 400 is not the
    validator's Problem text (it begins with a capital F), and without a
    [description] the handler reports the missing description instead. *)
Lemma properties_detail_differs :
  parsed_value doc_blank_name (py "name") = Return (Some (VStr []))
  /\ fst (properties_text doc_blank_name)
     = Raise (HTTPException 400 (py "Field 'name' must be a non-empty string"))
  /\ fst (properties_text doc_blank_name)
     <> Raise (HTTPException 400 (py "field 'name' must be a non-empty string"))
  /\ parsed_value doc_name_only (py "name") = Return (Some (VStr []))
  /\ fst (properties_text doc_name_only)
     = Raise (HTTPException 400
                (py "Missing required field in frontmatter: description"))
  /\ fst (properties_text doc_name_only)
     <> Raise (HTTPException 400 (py "field 'name' must be a non-empty string")).
Proof.
  repeat split; try (vm_compute; reflexivity); vm_compute; discriminate.
Qed.

(** * The theorems at concrete requests and documents *)

Lemma oversize_rejected_before_core_witness :
  exists detail,
    run (validate_skill_text parse_frontmatter core_validate true class_name
           {| content := doc_oversize |})
    = (Raise (HTTPException 413 detail), [])
    /\ run (get_properties_from_text parse_frontmatter class_name
              {| content := doc_oversize |})
       = (Raise (HTTPException 413 detail), [])
    /\ run (generate_prompt_text parse_frontmatter class_name
              {| content := doc_oversize |})
       = (Raise (HTTPException 413 detail), []).
Proof.
  apply (oversize_rejected_before_core parse_frontmatter core_validate true
           class_name {| content := doc_oversize |}).
  vm_compute. reflexivity.
Defined.

Lemma valid_iff_no_problems_witness :
  exists response,
    run (validate_skill_text parse_frontmatter core_validate true class_name
           {| content := doc_foo_bar |})
    = (Return response, [CallParse doc_foo_bar; CallValidate md_foo_bar None])
    /\ (valid response = true <-> @nil str = []).
Proof.
  apply (valid_iff_no_problems parse_frontmatter core_validate true class_name
           {| content := doc_foo_bar |} md_foo_bar (py "Hello") []).
  - vm_compute. reflexivity.
  - vm_compute. reflexivity.
  - vm_compute. reflexivity.
Defined.

Lemma parse_error_is_reported_as_problem_witness :
  run (validate_skill_text parse_frontmatter core_validate true class_name
         {| content := doc_no_frontmatter |})
  = (Return {| valid := false;
               problems := Some [py "missing opening delimiter"] |},
     [CallParse doc_no_frontmatter]).
Proof.
  apply (parse_error_is_reported_as_problem parse_frontmatter core_validate
           true class_name {| content := doc_no_frontmatter |}
           (py "missing opening delimiter")).
  - vm_compute. reflexivity.
  - vm_compute. reflexivity.
Defined.

Lemma properties_are_stripped_witness :
  exists metadata body n d,
    parse_frontmatter doc_my_skill = Return (metadata, body)
    /\ metadata !! py "name" = Some (VStr n)
    /\ metadata !! py "description" = Some (VStr d)
    /\ py "my-skill" = strip n
    /\ py "A skill" = strip d.
Proof.
  apply (properties_are_stripped parse_frontmatter class_name
           {| content := doc_my_skill |}
           {| name := py "my-skill"; description := py "A skill" |}).
  vm_compute. reflexivity.
Defined.

Lemma prompt_checks_presence_only_witness :
  run (generate_prompt_text parse_frontmatter class_name
         {| content := doc_blank_name |})
  = (Return {| prompt := prompt_of [] (py "x") |}, [CallParse doc_blank_name])
  /\ (strip [] = [] \/ strip (py "x") = [] ->
      exists detail,
        run (get_properties_from_text parse_frontmatter class_name
               {| content := doc_blank_name |})
        = (Raise (HTTPException 400 detail), [CallParse doc_blank_name])).
Proof.
  apply (prompt_checks_presence_only parse_frontmatter class_name
           {| content := doc_blank_name |} md_blank_name [] [] (py "x")).
  - vm_compute. reflexivity.
  - vm_compute. reflexivity.
  - vm_compute. reflexivity.
  - vm_compute. reflexivity.
Defined.

Lemma missing_opening_delimiter_witness :
  parse_frontmatter [] = Raise (ParseError (py "missing opening delimiter")).
Proof.
  apply (missing_opening_delimiter []).
  unfold begins_with_delimiter. vm_compute.
  intros [H|[rest H]]; discriminate H.
Defined.

Lemma last_value_wins_witness :
  md_name_b !! py "name" = Some (VStr (py "b")).
Proof.
  apply (proj1 last_value_wins [py "name: a"] [] (py "name: b")
           (py "name") (py "b") doc_name_twice md_name_b []).
  - vm_compute. reflexivity.
  - vm_compute. reflexivity.
  - vm_compute. reflexivity.
  - right. exists []. vm_compute. reflexivity.
  - vm_compute. reflexivity.
Defined.

Lemma body_is_verbatim_witness :
  (exists block,
      forallb block_line block = true
      /\ (doc_foo_bar = header block ++ LF ++ py "Hello"
          \/ (doc_foo_bar = header block /\ py "Hello" = [])))
  /\ (forall bytes, encode_utf8 doc_foo_bar = Some bytes ->
      exists before body_bytes,
        encode_utf8 (py "Hello") = Some body_bytes
        /\ bytes = before ++ body_bytes).
Proof.
  apply (body_is_verbatim doc_foo_bar md_foo_bar (py "Hello")).
  vm_compute. reflexivity.
Defined.

(** * Further properties of the strings *)

Lemma utf8_char_length (c : N) (bytes : list N) :
  utf8_char c = Some bytes -> (1 <= length bytes <= 4)%nat.
Proof.
  unfold utf8_char.
  repeat match goal with
         | |- context [if ?b then _ else _] => destruct b
         end;
    intros [= <-]; cbn; lia.
Qed.

Lemma encode_utf8_length (s : str) (bytes : list N) :
  encode_utf8 s = Some bytes ->
  (length s <= length bytes <= 4 * length s)%nat.
Proof.
  revert bytes. induction s as [|c s IH]; intros bytes; cbn.
  - intros [= <-]. cbn. lia.
  - destruct (utf8_char c) as [cs|] eqn:C; [|discriminate].
    destruct (encode_utf8 s) as [rest|]; [|discriminate].
    intros [= <-]. apply utf8_char_length in C.
    specialize (IH rest eq_refl). rewrite length_app. lia.
Qed.

Lemma encode_utf8_ascii (s : str) :
  forallb (fun c => c <? 0x80) s = true -> encode_utf8 s = Some s.
Proof.
  induction s as [|c s IH]; cbn; [reflexivity|].
  intros H. apply andb_true_iff in H as [Hc Hs].
  unfold utf8_char. rewrite Hc, (IH Hs). reflexivity.
Qed.

Lemma encodable_encode_utf8 (s : str) :
  encodable s = true -> exists bytes, encode_utf8 s = Some bytes.
Proof.
  induction s as [|c s IH]; cbn; [eauto|].
  intros H. apply andb_true_iff in H as [Hc Hs].
  destruct (IH Hs) as [rest ->].
  apply andb_true_iff in Hc as [Hr Hq]. apply negb_true_iff in Hq.
  unfold utf8_char. rewrite Hr, Hq.
  repeat match goal with
         | |- context [if ?b then _ else _] => destruct b
         end; eauto.
Qed.

Lemma surrogate_unencodable (s : str) :
  existsb is_surrogate s = true -> encode_utf8 s = None.
Proof.
  induction s as [|c s IH]; cbn; [discriminate|].
  intros H. apply orb_true_iff in H as [Hc|Hs].
  - unfold utf8_char. rewrite Hc.
    unfold is_surrogate in Hc. apply andb_true_iff in Hc as [Lo Hi].
    apply N.leb_le in Lo. apply N.leb_le in Hi.
    destruct (c <? 0x80) eqn:A; [apply N.ltb_lt in A; lia|].
    destruct (c <? 0x800) eqn:B; [apply N.ltb_lt in B; lia|].
    destruct (c <? 0x10000) eqn:C; [reflexivity|].
    apply N.ltb_ge in C. lia.
  - rewrite (IH Hs). destruct (utf8_char c); reflexivity.
Qed.

(** X5: the size the handlers compare with the limit lies between the number
    of code points of the content and four times that number, and equals it
    for ASCII content; so encodable content of at most 250,000 code points
    is within the limit and content of more than 1,000,000 is above it. *)
Theorem size_between_length_and_fourfold (request : ValidationTextRequest) :
  encodable (content request) = true ->
  exists size,
    content_size request = Some size
    /\ N.of_nat (length (content request)) <= size
    /\ size <= 4 * N.of_nat (length (content request))
    /\ (forallb (fun c => c <? 0x80) (content request) = true ->
        size = N.of_nat (length (content request)))
    /\ (N.of_nat (length (content request)) <= 250000 ->
        within_limit request = true)
    /\ (1000000 < N.of_nat (length (content request)) ->
        over_limit request = true).
Proof.
  intros H. destruct (encodable_encode_utf8 _ H) as [bytes E].
  pose proof (encode_utf8_length _ _ E) as [Lo Hi].
  exists (N.of_nat (length bytes)).
  unfold within_limit, over_limit, content_size. rewrite E.
  repeat split; try lia.
  - intros A. rewrite (encode_utf8_ascii _ A) in E.
    injection E as <-. reflexivity.
  - intros L. apply N.leb_le. lia.
  - intros L. apply N.ltb_lt. lia.
Qed.

Lemma lstrip_whitespace (s : str) : whitespace_only s = true -> lstrip s = [].
Proof.
  unfold whitespace_only. induction s as [|c s IH]; cbn; [reflexivity|].
  intros H. apply andb_true_iff in H as [Hc Hs]. rewrite Hc. exact (IH Hs).
Qed.

Lemma strip_whitespace (s : str) : whitespace_only s = true -> strip s = [].
Proof. intros H. unfold strip. rewrite (lstrip_whitespace _ H). reflexivity. Qed.

Lemma strip_not_whitespace (s : str) :
  whitespace_only s = false -> strip s <> [].
Proof.
  intros H E. apply strip_nil in E. unfold whitespace_only in H. congruence.
Qed.

Lemma lstrip_padded (s : str) :
  exists before, s = before ++ lstrip s /\ whitespace_only before = true.
Proof.
  induction s as [|c s (before & E & W)]; cbn.
  - exists []. auto.
  - destruct (isspace c) eqn:Hc.
    + exists (c :: before). unfold whitespace_only in *. cbn. rewrite Hc, W.
      split; [congruence|reflexivity].
    + exists []. auto.
Qed.

Lemma rstrip_padded (s : str) :
  exists after, s = rstrip s ++ after /\ whitespace_only after = true.
Proof.
  unfold rstrip. destruct (lstrip_padded (rev s)) as (before & E & W).
  exists (rev before). split.
  - rewrite <- rev_app_distr, <- E, rev_involutive. reflexivity.
  - unfold whitespace_only. rewrite forallb_rev. exact W.
Qed.

(** [strip] takes away white space only, and only at the two ends. *)
Lemma strip_padded (s : str) : padded (strip s) s.
Proof.
  destruct (lstrip_padded s) as (before & E & W).
  destruct (rstrip_padded (lstrip s)) as (after & E' & W').
  exists before, after. unfold strip. rewrite <- E', <- E. auto.
Qed.

Lemma rstrip_last (s : str) (d : N) :
  rstrip s <> [] -> isspace (List.last (rstrip s) d) = false.
Proof.
  unfold rstrip. destruct (lstrip (rev s)) as [|c t] eqn:E; [contradiction|].
  intros _. apply lstrip_head in E. cbn [rev]. rewrite last_last. exact E.
Qed.

Lemma lstrip_app (a b : str) :
  lstrip (a ++ b)
  = if whitespace_only a then lstrip b else lstrip a ++ b.
Proof.
  unfold whitespace_only. induction a as [|c a IH]; cbn; [reflexivity|].
  destruct (isspace c); [exact IH|reflexivity].
Qed.

Lemma rstrip_cons (c : N) (t : str) :
  rstrip (c :: t)
  = match rstrip t with
    | [] => if isspace c then [] else [c]
    | _ :: _ => c :: rstrip t
    end.
Proof.
  unfold rstrip. cbn [rev]. rewrite lstrip_app.
  destruct (whitespace_only (rev t)) eqn:W.
  - rewrite (lstrip_whitespace _ W). cbn. destruct (isspace c); reflexivity.
  - destruct (lstrip (rev t)) as [|x u] eqn:E.
    + apply lstrip_nil in E. unfold whitespace_only in W. congruence.
    + rewrite rev_app_distr. cbn [rev app].
      destruct (rev u ++ [x]) eqn:R; [destruct (rev u); discriminate|].
      reflexivity.
Qed.

(** What [strip] leaves, if anything, neither begins nor ends with white
    space. *)
Lemma strip_is_trimmed (s : str) : strip s <> [] -> is_trimmed (strip s) = true.
Proof.
  intros NE. unfold is_trimmed.
  destruct (strip s) as [|c t] eqn:E; [contradiction|].
  assert (Hlast : isspace (List.last (c :: t) c) = false).
  { rewrite <- E. unfold strip. apply rstrip_last. fold (strip s). congruence. }
  rewrite Hlast. unfold strip in E.
  destruct (lstrip s) as [|x u] eqn:L; [discriminate|].
  apply lstrip_head in L. rewrite rstrip_cons in E.
  destruct (rstrip u); [rewrite L in E|]; injection E as <- _;
    rewrite L; reflexivity.
Qed.

Lemma blank_or_not_string_false (v : value) :
  blank_or_not_string v = false ->
  exists s, v = VStr s /\ whitespace_only s = false.
Proof. destruct v; cbn; try discriminate. eauto. Qed.

Lemma occurrences_app (c : N) (a b : str) :
  occurrences c (a ++ b) = (occurrences c a + occurrences c b)%nat.
Proof. unfold occurrences. apply count_occ_app. Qed.

Lemma escape_char_eq (c : N) :
  escape_char c
  = if c =? 0x26 then [0x26; 0x61; 0x6D; 0x70; 0x3B]
    else if c =? 0x3C then [0x26; 0x6C; 0x74; 0x3B]
    else if c =? 0x3E then [0x26; 0x67; 0x74; 0x3B]
    else if c =? 0x22 then [0x26; 0x71; 0x75; 0x6F; 0x74; 0x3B]
    else if c =? 0x27 then [0x26; 0x23; 0x78; 0x32; 0x37; 0x3B]
    else [c].
Proof. reflexivity. Qed.

(** Turn the outcomes of [=?] among the hypotheses into equations. *)
Ltac eqb_to_eq :=
  repeat match goal with
         | H : (_ =? _) = true |- _ => apply N.eqb_eq in H
         | H : (_ =? _) = false |- _ => apply N.eqb_neq in H
         end.

(** Split on every test of the escape of a character. *)
Ltac escape_cases :=
  rewrite ?escape_char_eq;
  repeat match goal with
         | |- context [if ?b then _ else _] => destruct b eqn:?
         end;
  eqb_to_eq.

(** No escaped character holds a markup delimiter or a quote. *)
Lemma escape_char_no_markup (c x : N) :
  In c [0x3C; 0x3E; 0x22; 0x27] -> occurrences c (escape_char x) = 0%nat.
Proof.
  intros H. unfold occurrences. escape_cases; subst;
    cbn in H; decompose [or] H; subst; try contradiction; cbn;
    repeat match goal with
           | |- context [N.eq_dec ?a ?b] => destruct (N.eq_dec a b)
           end; congruence.
Qed.

Lemma html_escape_no_markup (c : N) (s : str) :
  In c [0x3C; 0x3E; 0x22; 0x27] -> occurrences c (html_escape s) = 0%nat.
Proof.
  intros H. induction s as [|x s IH]; [reflexivity|].
  cbn [html_escape flat_map]. fold (html_escape s).
  rewrite occurrences_app, IH, (escape_char_no_markup _ _ H). reflexivity.
Qed.

(** Escaping loses nothing: different texts have different escapes. *)
Lemma html_escape_inj (s1 s2 : str) :
  html_escape s1 = html_escape s2 -> s1 = s2.
Proof.
  revert s2. induction s1 as [|c1 s1 IH]; intros [|c2 s2];
    cbn [html_escape flat_map];
    try fold (html_escape s1); try fold (html_escape s2).
  - reflexivity.
  - escape_cases; discriminate.
  - escape_cases; discriminate.
  - escape_cases; cbn [app]; intros H;
      first [ congruence
            | f_equal; [congruence | apply IH; congruence] ].
Qed.

(** Two texts that agree up to and after their first [c] agree before it. *)
Lemma split_at_first (c : N) (x x' r r' : str) :
  occurrences c x = 0%nat -> occurrences c x' = 0%nat ->
  x ++ c :: r = x' ++ c :: r' -> x = x' /\ r = r'.
Proof.
  unfold occurrences. revert x'.
  induction x as [|a x IH]; intros [|a' x']; cbn [app count_occ].
  - intros _ _ [= <-]. auto.
  - destruct (N.eq_dec a' c); [discriminate|]. intros _ _ [= E _]. congruence.
  - destruct (N.eq_dec a c); [discriminate|]. intros _ _ [= E _]. congruence.
  - destruct (N.eq_dec a c); [discriminate|].
    destruct (N.eq_dec a' c); [discriminate|].
    intros H H' [= <- E]. destruct (IH x' H H' E) as [<- <-]. auto.
Qed.

Lemma prompt_of_shape (n d : str) :
  prompt_of n d
  = prompt_open ++ html_escape (strip n) ++ prompt_between
    ++ html_escape (strip d) ++ prompt_close.
Proof.
  unfold prompt_of, prompt_open, prompt_between, prompt_close.
  cbn [join]. rewrite <- !app_assoc. reflexivity.
Qed.

(** The prompt fixes the stripped name and the stripped description. *)
Lemma prompt_of_inj (n d n' d' : str) :
  prompt_of n d = prompt_of n' d' ->
  strip n = strip n' /\ strip d = strip d'.
Proof.
  rewrite !prompt_of_shape. intros H. apply app_inv_head in H.
  change prompt_between with ([0x0A] ++ 0x3C :: skipn 2 prompt_between) in H.
  rewrite !app_assoc in H. rewrite <- !(app_assoc (_ ++ [0x0A])) in H.
  cbn [app] in H.
  apply split_at_first in H as [Hn Hd].
  - apply app_inj_tail in Hn as [Hn _].
    apply app_inv_tail in Hd. apply app_inv_head in Hd.
    split; apply html_escape_inj; assumption.
  - rewrite occurrences_app, html_escape_no_markup by (cbn; auto). reflexivity.
  - rewrite occurrences_app, html_escape_no_markup by (cbn; auto). reflexivity.
Qed.

(** * Further properties of the handlers *)

Lemma utf8_size_unencodable (s : str) (t : list call) :
  encode_utf8 s = None ->
  utf8_size s t = (Raise (BuiltinError (UnicodeEncodeError s)), t).
Proof. intros E. unfold utf8_size. rewrite E. reflexivity. Qed.

Lemma content_size_utf8_size (request : ValidationTextRequest) (size : N)
    (t : list call) :
  content_size request = Some size ->
  utf8_size (content request) t = (Return size, t).
Proof.
  unfold content_size, utf8_size.
  destruct (encode_utf8 (content request)); [|discriminate].
  intros [= <-]. reflexivity.
Qed.

(** Split a goal about a handler along the handler's own branches: the
    encoding, the size check, the parser's outcome and the two lookups. *)
Ltac handler_cases parse request :=
  unfold_handler; unfold utf8_size;
  destruct (encode_utf8 (content request)) as [?bytes|] eqn:?E; cbn;
  [ destruct (1000000 <? N.of_nat (length _)) eqn:?L; cbn;
    [ | destruct (parse (content request)) as [[?metadata ?body]|?e] eqn:?P;
        cbn ]
  | ].

Section HandlerBehaviour.

Variable parse_frontmatter : str -> outcome (MetadataBlock * str).
Variable validate_metadata : MetadataBlock -> option str -> outcome (list str).
Variable ParseError_is_SkillError : bool.
Variable str_builtin : builtin_error -> str.


(** X2: the core is called in a fixed pattern.  [/validate/text] calls
    nothing, or the parser once on the request's content, or the parser and
    then the validator once, on the metadata the parser returned and with no
    directory; [/properties/text] and [/prompt/text] call nothing or the
    parser once, and never the validator. *)
Theorem core_call_pattern (request : ValidationTextRequest) :
  (let t := snd (run (validate_skill_text parse_frontmatter validate_metadata
                        ParseError_is_SkillError str_builtin request)) in
   t = [] \/ t = [CallParse (content request)]
   \/ exists metadata body,
        parse_frontmatter (content request) = Return (metadata, body)
        /\ t = [CallParse (content request); CallValidate metadata None])
  /\ (let t := snd (run (get_properties_from_text parse_frontmatter str_builtin
                           request)) in
      t = [] \/ t = [CallParse (content request)])
  /\ (let t := snd (run (generate_prompt_text parse_frontmatter str_builtin
                           request)) in
      t = [] \/ t = [CallParse (content request)]).
Proof.
  repeat split.
  - handler_cases parse_frontmatter request; auto.
    + right. right. exists metadata, body. split; [reflexivity|].
      destruct (validate_metadata metadata None) as [probs|e]; cbn;
        [reflexivity|].
      destruct e; cbn; try reflexivity;
        destruct ParseError_is_SkillError; reflexivity.
    + right. left. destruct e; cbn; try reflexivity;
        destruct ParseError_is_SkillError; reflexivity.
  - handler_cases parse_frontmatter request; auto.
    + right.
      destruct (metadata !! py "name") as [[n| | |]|]; cbn; auto;
        destruct (metadata !! py "description") as [[d| | |]|]; cbn; auto;
        destruct (strip n); cbn; auto; destruct (strip d); cbn; auto.
    + right. destruct e; reflexivity.
  - handler_cases parse_frontmatter request; auto.
    + right.
      destruct (metadata !! py "name") as [[n| | |]|]; cbn; auto;
        destruct (metadata !! py "description") as [[d| | |]|]; cbn; auto.
    + right. destruct e; reflexivity.
Qed.

(** X3: in every response [/validate/text] returns, [valid] is true exactly
    when [problems] is absent, and [problems] is never present and empty. *)
Theorem validation_response_invariant (request : ValidationTextRequest)
    (response : ValidationResponse) :
  fst (run (validate_skill_text parse_frontmatter validate_metadata
              ParseError_is_SkillError str_builtin request))
  = Return response ->
  (valid response = true <-> problems response = None)
  /\ problems response <> Some [].
Proof.
  handler_cases parse_frontmatter request; try discriminate.
  - destruct (validate_metadata metadata None) as [probs|e]; cbn.
    + intros [= <-]. cbn. destruct probs; cbn; split;
        try split; congruence.
    + destruct e; cbn; try discriminate.
      destruct ParseError_is_SkillError; discriminate.
  - destruct e; cbn; try discriminate.
    intros [= <-]. cbn. split; [split|]; congruence.
Qed.

(** X4: the limit is inclusive and counts bytes.  With [size] the number of
    UTF-8 bytes of the content, a handler whose request is above 1,000,000
    raises the 413 whose detail spells that number in decimal, having called
    nothing; at 1,000,000 or below its first core call is the parser, on the
    content as received. *)
Theorem size_limit_is_inclusive (request : ValidationTextRequest) (size : N) :
  content_size request = Some size ->
  size_gate size (content request)
    (run (validate_skill_text parse_frontmatter validate_metadata
            ParseError_is_SkillError str_builtin request))
  /\ size_gate size (content request)
       (run (get_properties_from_text parse_frontmatter str_builtin request))
  /\ size_gate size (content request)
       (run (generate_prompt_text parse_frontmatter str_builtin request)).
Proof.
  intros HS. unfold size_gate.
  repeat split; unfold_handler; rewrite (content_size_utf8_size _ _ _ HS);
    destruct (1000000 <? size); cbn; try reflexivity;
    destruct (parse_frontmatter (content request)) as [[metadata body]|e]; cbn.
  - destruct (validate_metadata metadata None) as [probs|e]; cbn;
      [eexists; reflexivity|].
    destruct e; cbn; try (eexists; reflexivity);
      destruct ParseError_is_SkillError; eexists; reflexivity.
  - destruct e; cbn; try (eexists; reflexivity);
      destruct ParseError_is_SkillError; eexists; reflexivity.
  - destruct (metadata !! py "name") as [[n| | |]|]; cbn;
      try (eexists; reflexivity);
      destruct (metadata !! py "description") as [[d| | |]|]; cbn;
      try (eexists; reflexivity);
      destruct (strip n); cbn; try (eexists; reflexivity);
      destruct (strip d); cbn; eexists; reflexivity.
  - destruct e; eexists; reflexivity.
  - destruct (metadata !! py "name") as [[n| | |]|]; cbn;
      try (eexists; reflexivity);
      destruct (metadata !! py "description") as [[d| | |]|]; cbn;
      eexists; reflexivity.
  - destruct e; eexists; reflexivity.
Qed.

(** X6: a content that holds a surrogate code point has no UTF-8 encoding;
    each handler then raises an HTTPException of status 500 whose detail is
    "Internal error: " followed by the text of the UnicodeEncodeError, and
    calls nothing of the core. *)
Theorem surrogate_content_is_internal_error (request : ValidationTextRequest) :
  existsb is_surrogate (content request) = true ->
  let e := HTTPException 500
             (py "Internal error: "
              ++ str_builtin (UnicodeEncodeError (content request))) in
  run (validate_skill_text parse_frontmatter validate_metadata
         ParseError_is_SkillError str_builtin request) = (Raise e, [])
  /\ run (get_properties_from_text parse_frontmatter str_builtin request)
     = (Raise e, [])
  /\ run (generate_prompt_text parse_frontmatter str_builtin request)
     = (Raise e, []).
Proof.
  intros H e. apply surrogate_unencodable in H.
  repeat split; unfold_handler;
    rewrite (utf8_size_unencodable _ _ H); reflexivity.
Qed.

(** X7: [/properties/text] and [/prompt/text] look for [name] first and for
    [description] second: without [name] both raise the 400 that names
    [name], whatever else the metadata holds; with [name] and without
    [description] both raise the 400 that names [description]. *)
Theorem missing_key_is_named (request : ValidationTextRequest)
    (metadata : MetadataBlock) (body : str) :
  within_limit request = true ->
  parse_frontmatter (content request) = Return (metadata, body) ->
  (metadata !! py "name" = None ->
   let e := HTTPException 400
              (py "Missing required field in frontmatter: name") in
   run (get_properties_from_text parse_frontmatter str_builtin request)
   = (Raise e, [CallParse (content request)])
   /\ run (generate_prompt_text parse_frontmatter str_builtin request)
      = (Raise e, [CallParse (content request)]))
  /\ (is_Some (metadata !! py "name") ->
      metadata !! py "description" = None ->
      let e := HTTPException 400
                 (py "Missing required field in frontmatter: description") in
      run (get_properties_from_text parse_frontmatter str_builtin request)
      = (Raise e, [CallParse (content request)])
      /\ run (generate_prompt_text parse_frontmatter str_builtin request)
         = (Raise e, [CallParse (content request)])).
Proof.
  intros HL HP. split.
  - intros Hn e. split; size_check HL; rewrite HP; cbn [fst]; rewrite Hn;
      reflexivity.
  - intros [v Hn] Hd e. split; size_check HL; rewrite HP; cbn [fst];
      rewrite Hn, Hd; reflexivity.
Qed.

(** X8: with a [name] that is a string holding more than white space,
    [/properties/text] answers a [description] that is no string, or a
    string of white space only, with the 400
    "Field 'description' must be a non-empty string". *)
Theorem properties_rejects_empty_description (request : ValidationTextRequest)
    (metadata : MetadataBlock) (body : str) (v w : value) :
  within_limit request = true ->
  parse_frontmatter (content request) = Return (metadata, body) ->
  metadata !! py "name" = Some v ->
  metadata !! py "description" = Some w ->
  blank_or_not_string v = false ->
  blank_or_not_string w = true ->
  run (get_properties_from_text parse_frontmatter str_builtin request)
  = (Raise (HTTPException 400
              (py "Field 'description' must be a non-empty string")),
     [CallParse (content request)]).
Proof.
  intros HL HP Hn Hd Hv Hw.
  destruct (blank_or_not_string_false _ Hv) as (n & -> & Wn).
  apply strip_not_whitespace in Wn.
  size_check HL. rewrite HP. cbn [fst]. rewrite Hn, Hd.
  destruct (strip n); [contradiction|].
  destruct w as [d| | |]; try reflexivity.
  cbn in Hw. rewrite (strip_whitespace _ Hw). reflexivity.
Qed.

(** X9: when the content is within the limit and parses, and [name] and
    [description] are strings holding more than white space,
    [/properties/text] returns the two strings stripped, after the one call
    of the parser. *)
Theorem properties_returns_stripped (request : ValidationTextRequest)
    (metadata : MetadataBlock) (body n d : str) :
  within_limit request = true ->
  parse_frontmatter (content request) = Return (metadata, body) ->
  metadata !! py "name" = Some (VStr n) ->
  metadata !! py "description" = Some (VStr d) ->
  whitespace_only n = false ->
  whitespace_only d = false ->
  run (get_properties_from_text parse_frontmatter str_builtin request)
  = (Return {| name := strip n; description := strip d |},
     [CallParse (content request)]).
Proof.
  intros HL HP Hn Hd Wn Wd.
  apply strip_not_whitespace in Wn. apply strip_not_whitespace in Wd.
  size_check HL. rewrite HP. cbn [fst]. rewrite Hn, Hd.
  destruct (strip n); [contradiction|].
  destruct (strip d); [contradiction|]. reflexivity.
Qed.

(** X10: in every response [/properties/text] returns, [name] and
    [description] are non-empty, neither begins nor ends with white space,
    and each is the string the metadata holds under that key with nothing
    but white space taken away before and after it. *)
Theorem properties_response_is_trimmed (request : ValidationTextRequest)
    (response : PropertiesResponse) :
  fst (run (get_properties_from_text parse_frontmatter str_builtin request))
  = Return response ->
  is_trimmed (name response) = true
  /\ is_trimmed (description response) = true
  /\ exists metadata body n d,
       parse_frontmatter (content request) = Return (metadata, body)
       /\ metadata !! py "name" = Some (VStr n)
       /\ metadata !! py "description" = Some (VStr d)
       /\ padded (name response) n
       /\ padded (description response) d.
Proof.
  handler_cases parse_frontmatter request; try discriminate;
    [|destruct e; discriminate].
  destruct (metadata !! py "name") as [v|] eqn:Hn; cbn; [|discriminate].
  destruct (metadata !! py "description") as [w|] eqn:Hd; cbn; [|discriminate].
  destruct v as [n| | |]; cbn; try discriminate.
  destruct (strip n) eqn:Sn; cbn; [discriminate|].
  destruct w as [d| | |]; cbn; try discriminate.
  destruct (strip d) eqn:Sd; cbn; [discriminate|].
  intros [= <-]. cbn [name description].
  assert (NEn : strip n <> []) by congruence.
  assert (NEd : strip d <> []) by congruence.
  split; [rewrite <- Sn; exact (strip_is_trimmed _ NEn)|].
  split; [rewrite <- Sd; exact (strip_is_trimmed _ NEd)|].
  exists metadata, body, n, d.
  rewrite <- Sn, <- Sd. repeat split; auto using strip_padded.
Qed.

(** X11: [/prompt/text] calls [strip] on whatever the two keys hold, the
    name first: when one of them is not a string the AttributeError ends as
    an HTTPException of status 500, where [/properties/text] answers the
    same request with status 400. *)
Theorem prompt_non_string_is_internal_error (request : ValidationTextRequest)
    (metadata : MetadataBlock) (body : str) (v w : value) :
  within_limit request = true ->
  parse_frontmatter (content request) = Return (metadata, body) ->
  metadata !! py "name" = Some v ->
  metadata !! py "description" = Some w ->
  is_VStr v && is_VStr w = false ->
  run (generate_prompt_text parse_frontmatter str_builtin request)
  = (Raise (HTTPException 500
              (py "Internal error: "
               ++ str_builtin
                    (AttributeError (if is_VStr v then w else v) (py "strip")))),
     [CallParse (content request)])
  /\ exists detail,
       run (get_properties_from_text parse_frontmatter str_builtin request)
       = (Raise (HTTPException 400 detail), [CallParse (content request)]).
Proof.
  intros HL HP Hn Hd Hs. split.
  - size_check HL. rewrite HP. cbn [fst]. rewrite Hn, Hd.
    destruct v, w; try discriminate; reflexivity.
  - size_check HL. rewrite HP. cbn [fst]. rewrite Hn, Hd.
    destruct v as [n| | |]; try (eexists; reflexivity).
    destruct (strip n); [eexists; reflexivity|].
    destruct w; try discriminate; eexists; reflexivity.
Qed.

(** X13: a ParseError of the parser reaches the client of
    [/properties/text] and of [/prompt/text] as an HTTPException of status
    400 whose detail is the ParseError's message. *)
Theorem parse_error_is_bad_request (request : ValidationTextRequest)
    (msg : str) :
  within_limit request = true ->
  parse_frontmatter (content request) = Raise (ParseError msg) ->
  run (get_properties_from_text parse_frontmatter str_builtin request)
  = (Raise (HTTPException 400 msg), [CallParse (content request)])
  /\ run (generate_prompt_text parse_frontmatter str_builtin request)
     = (Raise (HTTPException 400 msg), [CallParse (content request)]).
Proof.
  intros HL HP. split; size_check HL; rewrite HP; reflexivity.
Qed.



(** Whenever [/prompt/text] returns, the document parsed, both keys hold
    strings, and the prompt is the one built from them. *)
Lemma prompt_returns_inv (request : ValidationTextRequest)
    (response : PromptResponse) :
  fst (run (generate_prompt_text parse_frontmatter str_builtin request))
  = Return response ->
  exists metadata body n d,
    parse_frontmatter (content request) = Return (metadata, body)
    /\ metadata !! py "name" = Some (VStr n)
    /\ metadata !! py "description" = Some (VStr d)
    /\ prompt response = prompt_of n d.
Proof.
  handler_cases parse_frontmatter request; try discriminate;
    [|destruct e; discriminate].
  destruct (metadata !! py "name") as [v|] eqn:Hn; cbn; [|discriminate].
  destruct (metadata !! py "description") as [w|] eqn:Hd; cbn; [|discriminate].
  destruct v as [n| | |]; cbn; try discriminate.
  destruct w as [d| | |]; cbn; try discriminate.
  intros [= <-]. exists metadata, body, n, d. auto.
Qed.

(** X12: whatever name and description the metadata holds, a prompt that
    [/prompt/text] returns has exactly ten "<" and ten ">", those of its ten
    tags, and no double or single quote: the two values cannot add markup. *)
Theorem prompt_markup_is_fixed (request : ValidationTextRequest)
    (response : PromptResponse) :
  fst (run (generate_prompt_text parse_frontmatter str_builtin request))
  = Return response ->
  occurrences 0x3C (prompt response) = 10%nat
  /\ occurrences 0x3E (prompt response) = 10%nat
  /\ occurrences 0x22 (prompt response) = 0%nat
  /\ occurrences 0x27 (prompt response) = 0%nat.
Proof.
  intros H. destruct (prompt_returns_inv _ _ H) as (md & body & n & d & _ & _ & _ & ->).
  rewrite prompt_of_shape.
  repeat split; rewrite !occurrences_app, !html_escape_no_markup by (cbn; auto);
    reflexivity.
Qed.

(** X17: two requests that [/prompt/text] answers with the same prompt hold
    the same name and the same description, up to the white space [strip]
    removes: escaping and joining lose nothing. *)
Theorem equal_prompts_equal_fields (request1 request2 : ValidationTextRequest)
    (response : PromptResponse) :
  fst (run (generate_prompt_text parse_frontmatter str_builtin request1))
  = Return response ->
  fst (run (generate_prompt_text parse_frontmatter str_builtin request2))
  = Return response ->
  exists metadata1 body1 metadata2 body2 n1 d1 n2 d2,
    parse_frontmatter (content request1) = Return (metadata1, body1)
    /\ parse_frontmatter (content request2) = Return (metadata2, body2)
    /\ metadata1 !! py "name" = Some (VStr n1)
    /\ metadata1 !! py "description" = Some (VStr d1)
    /\ metadata2 !! py "name" = Some (VStr n2)
    /\ metadata2 !! py "description" = Some (VStr d2)
    /\ strip n1 = strip n2 /\ strip d1 = strip d2.
Proof.
  intros H1 H2.
  destruct (prompt_returns_inv _ _ H1) as (m1 & b1 & n1 & d1 & P1 & N1 & D1 & E1).
  destruct (prompt_returns_inv _ _ H2) as (m2 & b2 & n2 & d2 & P2 & N2 & D2 & E2).
  rewrite E1 in E2. apply prompt_of_inj in E2 as [En Ed].
  exists m1, b1, m2, b2, n1, d1, n2, d2. repeat split; assumption.
Qed.

End HandlerBehaviour.

(** X16: the handlers read the metadata only.  Two parsers that make the
    same metadata, or raise the same exception, on a request's content give
    the same answer from each handler, whatever bodies they return. *)
Theorem body_is_ignored
    (parse1 parse2 : str -> outcome (MetadataBlock * str))
    (validate_metadata : MetadataBlock -> option str -> outcome (list str))
    (ParseError_is_SkillError : bool) (str_builtin : builtin_error -> str)
    (request : ValidationTextRequest) :
  metadata_of (parse1 (content request))
  = metadata_of (parse2 (content request)) ->
  run (validate_skill_text parse1 validate_metadata ParseError_is_SkillError
         str_builtin request)
  = run (validate_skill_text parse2 validate_metadata ParseError_is_SkillError
           str_builtin request)
  /\ run (get_properties_from_text parse1 str_builtin request)
     = run (get_properties_from_text parse2 str_builtin request)
  /\ run (generate_prompt_text parse1 str_builtin request)
     = run (generate_prompt_text parse2 str_builtin request).
Proof.
  intros H. unfold_handler.
  destruct (utf8_size (content request) []) as [[size|e] t]; cbn; [|auto].
  destruct (1000000 <? size); cbn; [auto|].
  destruct (parse1 (content request)) as [[m1 b1]|e1];
    destruct (parse2 (content request)) as [[m2 b2]|e2];
    cbn in H; try discriminate; injection H as <-; auto.
Qed.

(** * The further properties at concrete requests *)

Lemma validation_response_invariant_witness :
  (valid {| valid := true; problems := None |} = true
   <-> problems {| valid := true; problems := None |} = None)
  /\ problems {| valid := true; problems := None |} <> Some [].
Proof.
  apply (validation_response_invariant parse_frontmatter core_validate true
           class_name {| content := doc_foo_bar |}).
  vm_compute. reflexivity.
Defined.

Lemma size_limit_is_inclusive_witness :
  size_gate 1000000 doc_at_limit
    (run (validate_skill_text parse_frontmatter core_validate true class_name
            {| content := doc_at_limit |}))
  /\ size_gate 1000000 doc_at_limit
       (run (get_properties_from_text parse_frontmatter class_name
               {| content := doc_at_limit |}))
  /\ size_gate 1000000 doc_at_limit
       (run (generate_prompt_text parse_frontmatter class_name
               {| content := doc_at_limit |})).
Proof.
  apply (size_limit_is_inclusive parse_frontmatter core_validate true
           class_name {| content := doc_at_limit |} 1000000).
  vm_compute. reflexivity.
Defined.

Lemma size_between_length_and_fourfold_witness :
  exists size,
    content_size {| content := doc_my_skill |} = Some size
    /\ N.of_nat (length doc_my_skill) <= size
    /\ size <= 4 * N.of_nat (length doc_my_skill)
    /\ (forallb (fun c => c <? 0x80) doc_my_skill = true ->
        size = N.of_nat (length doc_my_skill))
    /\ (N.of_nat (length doc_my_skill) <= 250000 ->
        within_limit {| content := doc_my_skill |} = true)
    /\ (1000000 < N.of_nat (length doc_my_skill) ->
        over_limit {| content := doc_my_skill |} = true).
Proof.
  apply (size_between_length_and_fourfold {| content := doc_my_skill |}).
  vm_compute. reflexivity.
Defined.

Lemma surrogate_content_is_internal_error_witness :
  run (validate_skill_text parse_frontmatter core_validate true class_name
         {| content := doc_surrogate |})
  = (Raise (HTTPException 500
              (py "Internal error: "
               ++ class_name (UnicodeEncodeError doc_surrogate))), [])
  /\ run (get_properties_from_text parse_frontmatter class_name
            {| content := doc_surrogate |})
     = (Raise (HTTPException 500
                 (py "Internal error: "
                  ++ class_name (UnicodeEncodeError doc_surrogate))), [])
  /\ run (generate_prompt_text parse_frontmatter class_name
            {| content := doc_surrogate |})
     = (Raise (HTTPException 500
                 (py "Internal error: "
                  ++ class_name (UnicodeEncodeError doc_surrogate))), []).
Proof.
  apply (surrogate_content_is_internal_error parse_frontmatter core_validate
           true class_name {| content := doc_surrogate |}).
  vm_compute. reflexivity.
Defined.

Lemma missing_key_is_named_witness :
  run (get_properties_from_text parse_frontmatter class_name
         {| content := doc_empty_block |})
  = (Raise (HTTPException 400
              (py "Missing required field in frontmatter: name")),
     [CallParse doc_empty_block])
  /\ run (generate_prompt_text parse_frontmatter class_name
            {| content := doc_empty_block |})
     = (Raise (HTTPException 400
                 (py "Missing required field in frontmatter: name")),
        [CallParse doc_empty_block]).
Proof.
  apply (proj1 (missing_key_is_named parse_frontmatter class_name
                  {| content := doc_empty_block |} ∅ []
                  ltac:(vm_compute; reflexivity)
                  ltac:(vm_compute; reflexivity))).
  vm_compute. reflexivity.
Defined.

Lemma properties_rejects_empty_description_witness :
  run (get_properties_from_text (parse_const md_null_description) class_name
         request_x)
  = (Raise (HTTPException 400
              (py "Field 'description' must be a non-empty string")),
     [CallParse (py "x")]).
Proof.
  apply (properties_rejects_empty_description (parse_const md_null_description)
           class_name request_x md_null_description [] (VStr (py "x")) VNull);
    vm_compute; reflexivity.
Defined.

Lemma properties_returns_stripped_witness :
  run (get_properties_from_text (parse_const md_padded_name) class_name
         request_x)
  = (Return {| name := strip (py "  <b>Tom & Jerry</b> ");
               description := strip (py " says 'hi' ") |},
     [CallParse (py "x")]).
Proof.
  apply (properties_returns_stripped (parse_const md_padded_name) class_name
           request_x md_padded_name []
           (py "  <b>Tom & Jerry</b> ") (py " says 'hi' "));
    vm_compute; reflexivity.
Defined.

Lemma properties_response_is_trimmed_witness :
  is_trimmed (py "<b>Tom & Jerry</b>") = true
  /\ is_trimmed (py "says 'hi'") = true
  /\ exists metadata body n d,
       parse_const md_padded_name (py "x") = Return (metadata, body)
       /\ metadata !! py "name" = Some (VStr n)
       /\ metadata !! py "description" = Some (VStr d)
       /\ padded (py "<b>Tom & Jerry</b>") n
       /\ padded (py "says 'hi'") d.
Proof.
  apply (properties_response_is_trimmed (parse_const md_padded_name) class_name
           request_x
           {| name := py "<b>Tom & Jerry</b>";
              description := py "says 'hi'" |}).
  vm_compute. reflexivity.
Defined.

Lemma prompt_non_string_is_internal_error_witness :
  run (generate_prompt_text (parse_const md_numeric_name) class_name request_x)
  = (Raise (HTTPException 500
              (py "Internal error: "
               ++ class_name (AttributeError (VNum 3) (py "strip")))),
     [CallParse (py "x")])
  /\ exists detail,
       run (get_properties_from_text (parse_const md_numeric_name) class_name
              request_x)
       = (Raise (HTTPException 400 detail), [CallParse (py "x")]).
Proof.
  apply (prompt_non_string_is_internal_error (parse_const md_numeric_name)
           class_name request_x md_numeric_name [] (VNum 3) (VStr (py "x")));
    vm_compute; reflexivity.
Defined.

Lemma prompt_markup_is_fixed_witness :
  occurrences 0x3C
    (prompt_of (py "  <b>Tom & Jerry</b> ") (py " says 'hi' ")) = 10%nat
  /\ occurrences 0x3E
       (prompt_of (py "  <b>Tom & Jerry</b> ") (py " says 'hi' ")) = 10%nat
  /\ occurrences 0x22
       (prompt_of (py "  <b>Tom & Jerry</b> ") (py " says 'hi' ")) = 0%nat
  /\ occurrences 0x27
       (prompt_of (py "  <b>Tom & Jerry</b> ") (py " says 'hi' ")) = 0%nat.
Proof.
  apply (prompt_markup_is_fixed (parse_const md_padded_name) class_name
           request_x
           {| prompt := prompt_of (py "  <b>Tom & Jerry</b> ")
                          (py " says 'hi' ") |}).
  vm_compute. reflexivity.
Defined.

Lemma parse_error_is_bad_request_witness :
  run (get_properties_from_text parse_frontmatter class_name
         {| content := doc_no_frontmatter |})
  = (Raise (HTTPException 400 (py "missing opening delimiter")),
     [CallParse doc_no_frontmatter])
  /\ run (generate_prompt_text parse_frontmatter class_name
            {| content := doc_no_frontmatter |})
     = (Raise (HTTPException 400 (py "missing opening delimiter")),
        [CallParse doc_no_frontmatter]).
Proof.
  apply (parse_error_is_bad_request parse_frontmatter class_name
           {| content := doc_no_frontmatter |}
           (py "missing opening delimiter"));
    vm_compute; reflexivity.
Defined.



Lemma body_is_ignored_witness :
  run (validate_skill_text parse_frontmatter core_validate true class_name
         {| content := doc_foo_bar |})
  = run (validate_skill_text (parse_const md_foo_bar) core_validate true
           class_name {| content := doc_foo_bar |})
  /\ run (get_properties_from_text parse_frontmatter class_name
            {| content := doc_foo_bar |})
     = run (get_properties_from_text (parse_const md_foo_bar) class_name
              {| content := doc_foo_bar |})
  /\ run (generate_prompt_text parse_frontmatter class_name
            {| content := doc_foo_bar |})
     = run (generate_prompt_text (parse_const md_foo_bar) class_name
              {| content := doc_foo_bar |}).
Proof.
  apply (body_is_ignored parse_frontmatter (parse_const md_foo_bar)
           core_validate true class_name {| content := doc_foo_bar |}).
  vm_compute. reflexivity.
Defined.

Lemma equal_prompts_equal_fields_witness :
  exists metadata1 body1 metadata2 body2 n1 d1 n2 d2,
    parse_frontmatter doc_foo_bar = Return (metadata1, body1)
    /\ parse_frontmatter doc_foo_bar_spaced = Return (metadata2, body2)
    /\ metadata1 !! py "name" = Some (VStr n1)
    /\ metadata1 !! py "description" = Some (VStr d1)
    /\ metadata2 !! py "name" = Some (VStr n2)
    /\ metadata2 !! py "description" = Some (VStr d2)
    /\ strip n1 = strip n2 /\ strip d1 = strip d2.
Proof.
  apply (equal_prompts_equal_fields parse_frontmatter class_name
           {| content := doc_foo_bar |} {| content := doc_foo_bar_spaced |}
           {| prompt := prompt_of (py "foo") (py "bar") |});
    vm_compute; reflexivity.
Defined.
